(** * cnpz: a streaming writer of ZIP / NumPy archives

    A shallow embedding of [src/cnpz.cpp] and [cnpz.h], and the properties
    of the byte streams it produces.

    Conventions of the embedding.
    - Bytes are integers in [0, 256); a [std::string] or a raw buffer is a
      list of bytes.
    - [uint16_t], [uint32_t] and [int] values are integers reduced with
      [to_u16], [to_u32] and [to_int] wherever the C++ code converts to
      these types.  [size_t] quantities that measure an in-memory buffer are
      plain integers: no buffer reaches 2^64 bytes.  The byte count that
      [add_array_of_type] computes is reduced with [to_u64], and a count of
      2^63 or more is a negative [std::streamsize].
    - The packed structs are laid out field by field, least significant
      byte first (the source relies on a little-endian host).
    - [std::ofstream] is a record holding the bytes of the file, whether
      the file is open, and the stream's failure bit.  Failures of the
      operating system while writing are not modelled.
    - The wall clock ([std::time]) is an argument [now] of every operation
      that reads it; zlib is an interface ([Zlib]) the operations are
      parameterised by.
    - A failed [assert], a dereferenced null pointer and a read past the
      data of an array end the run ([Aborted]); a C++ exception is
      [Thrown]. *)

From Stdlib Require Import ZArith Lia Bool String Ascii List.
Import ListNotations.
Local Open Scope Z_scope.

Module Cnpz.

(** ** Fixed-width integers and bytes *)

Definition byte := Z.
Definition bytes := list byte.

Definition to_u16 (x : Z) : Z := x mod 2 ^ 16.
Definition to_u32 (x : Z) : Z := x mod 2 ^ 32.
Definition to_u64 (x : Z) : Z := x mod 2 ^ 64.
(** conversion to a 32-bit two's complement [int] *)
Definition to_int (x : Z) : Z := (x + 2 ^ 31) mod 2 ^ 32 - 2 ^ 31.

Definition size (s : bytes) : Z := Z.of_nat (length s).

(** The [n] low bytes of [v], least significant first: the memory image of
    an [n]-byte unsigned field on a little-endian host. *)
Fixpoint le_bytes (n : nat) (v : Z) : bytes :=
  match n with
  | O => []
  | S k => v mod 256 :: le_bytes k (v / 256)
  end.

(** The value of a little-endian field. *)
Fixpoint le_value (bs : bytes) : Z :=
  match bs with
  | [] => 0
  | b :: rest => b + 256 * le_value rest
  end.

(** The field of [n] bytes found at offset [off] of [bs]. *)
Definition field (off n : nat) (bs : bytes) : Z :=
  le_value (firstn n (skipn off bs)).

Definition byte_of_ascii (a : ascii) : byte := Z.of_N (N_of_ascii a).

(** A string literal as bytes. *)
Definition str (s : string) : bytes := map byte_of_ascii (list_ascii_of_string s).

(** [std::string::ends_with] *)
Definition ends_with (s suffix : bytes) : bool :=
  (length suffix <=? length s)%nat &&
  if list_eq_dec Z.eq_dec (skipn (length s - length suffix) s) suffix
  then true else false.

(** ** Constants and packed records (cnpz.cpp, lines 13-66) *)

Definition ZIP_LOCAL_FILE_HEADER_SIG : Z := 0x04034b50.
Definition ZIP_CENTRAL_DIRECTORY_FILE_HEADER_SIG : Z := 0x02014b50.
Definition VERSION_MADE_BY : Z := 20.

Inductive CompressionMethod := STORED | DEFLATE.

Definition method_code (c : CompressionMethod) : Z :=
  match c with STORED => 0 | DEFLATE => 8 end.

Record ZipLocalFileHeader := {
  version_needed_to_extract : Z;
  general_purpose_bit_flag : Z;
  compression_method : Z;
  last_mod_file_time : Z;
  last_mod_file_date : Z;
  crc32 : Z;
  compressed_size : Z;
  uncompressed_size : Z;
  filename_length : Z;
  extra_field_length : Z
}.

(** The 26 bytes of the packed struct. *)
Definition local_header_bytes (h : ZipLocalFileHeader) : bytes :=
  le_bytes 2 (version_needed_to_extract h) ++
  le_bytes 2 (general_purpose_bit_flag h) ++
  le_bytes 2 (compression_method h) ++
  le_bytes 2 (last_mod_file_time h) ++
  le_bytes 2 (last_mod_file_date h) ++
  le_bytes 4 (crc32 h) ++
  le_bytes 4 (compressed_size h) ++
  le_bytes 4 (uncompressed_size h) ++
  le_bytes 2 (filename_length h) ++
  le_bytes 2 (extra_field_length h).

Record ZipCentralDirectoryFileHeaderSuffix := {
  file_comment_length : Z;
  disk_number_start : Z;
  internal_file_attr : Z;
  external_file_attr : Z;
  relative_offset_of_local_header : Z
}.

(** The 14 bytes of the packed struct. *)
Definition suffix_bytes (s : ZipCentralDirectoryFileHeaderSuffix) : bytes :=
  le_bytes 2 (file_comment_length s) ++
  le_bytes 2 (disk_number_start s) ++
  le_bytes 2 (internal_file_attr s) ++
  le_bytes 4 (external_file_attr s) ++
  le_bytes 4 (relative_offset_of_local_header s).

Record ZipEndOfCentralDirectoryRecord := {
  signature : Z;
  disk_number : Z;
  central_directory_disk_number : Z;
  num_entries_on_disk : Z;
  num_entries_total : Z;
  central_directory_size : Z;
  central_directory_offset : Z;
  comment_size : Z
}.

(** The 22 bytes of the packed struct. *)
Definition eocd_bytes (e : ZipEndOfCentralDirectoryRecord) : bytes :=
  le_bytes 4 (signature e) ++
  le_bytes 2 (disk_number e) ++
  le_bytes 2 (central_directory_disk_number e) ++
  le_bytes 2 (num_entries_on_disk e) ++
  le_bytes 2 (num_entries_total e) ++
  le_bytes 4 (central_directory_size e) ++
  le_bytes 4 (central_directory_offset e) ++
  le_bytes 2 (comment_size e).

(** ** Output streams *)

(** [std::ofstream]: the bytes of the file, whether the file buffer is
    open, and whether [failbit] or [badbit] is set. *)
Record ofstream := {
  contents : bytes;
  is_open : bool;
  failed : bool
}.

(** [tellp]: -1 on a failed stream and on a closed file buffer. *)
Definition tellp (s : ofstream) : Z :=
  if failed s then -1
  else if is_open s then size (contents s) else -1.

(** [write]: appends to an open stream in good state; on a failed stream
    the sentry refuses the write; on a closed file buffer no byte can be
    put, which sets [badbit] unless no byte was asked for. *)
Definition fs_write (s : ofstream) (bs : bytes) : ofstream :=
  if failed s then s
  else if is_open s then
    {| contents := contents s ++ bs; is_open := true; failed := false |}
  else match bs with
       | [] => s
       | _ :: _ => {| contents := contents s; is_open := false; failed := true |}
       end.

(** [close]: closing a file buffer that is not open sets [failbit]. *)
Definition fs_close (s : ofstream) : ofstream :=
  if is_open s then
    {| contents := contents s; is_open := false; failed := failed s |}
  else {| contents := contents s; is_open := false; failed := true |}.

(** [std::ostringstream]: the bytes written so far. *)
Definition ostringstream := bytes.

(** [std::ostream::write], the interface of both streams. *)
Class ostream (S : Type) := { write : S -> bytes -> S }.

#[export] Instance ofstream_ostream : ostream ofstream := {| write := fs_write |}.
#[export] Instance ostringstream_ostream : ostream ostringstream :=
  {| write := fun s bs => s ++ bs |}.

(** [write2] and [write4] (lines 76-84). *)
Definition write2 {S} `{ostream S} (os : S) (value : Z) : S :=
  write os (le_bytes 2 value).
Definition write4 {S} `{ostream S} (os : S) (value : Z) : S :=
  write os (le_bytes 4 value).

(** ** The calendar: [gmtime] *)

(** The fields of [struct tm] the program reads. *)
Record tm := {
  tm_sec : Z;
  tm_min : Z;
  tm_hour : Z;
  tm_mday : Z;
  tm_mon : Z;    (* months since January, 0..11 *)
  tm_year : Z    (* years since 1900 *)
}.

(** Day, month (1..12) and year of the proleptic Gregorian calendar for a
    number of days since 1970-01-01. *)
Definition civil_of_doe (doe : Z) : Z * Z * Z :=
  let yoe := (doe - doe / 1460 + doe / 36524 - doe / 146096) / 365 in
  let doy := doe - (365 * yoe + yoe / 4 - yoe / 100) in
  let mp := (5 * doy + 2) / 153 in
  let d := doy - (153 * mp + 2) / 5 + 1 in
  let m := if mp <? 10 then mp + 3 else mp - 9 in
  (yoe + (if m <=? 2 then 1 else 0), m, d).

Definition civil_from_days (days : Z) : Z * Z * Z :=
  let z := days + 719468 in
  let era := z / 146097 in
  let doe := z - era * 146097 in   (* day of the 400-year era *)
  let '(y, m, d) := civil_of_doe doe in
  (y + era * 400, m, d).

(** [gmtime]: the UTC decomposition of a number of seconds since the epoch;
    a null pointer when the year does not fit [tm_year]. *)
Definition gmtime (t : Z) : option tm :=
  let days := t / 86400 in
  let rem := t mod 86400 in
  let '(y, m, d) := civil_from_days days in
  if (- 2 ^ 31 <=? y - 1900) && (y - 1900 <? 2 ^ 31) then
    Some {| tm_sec := rem mod 60;
            tm_min := rem mod 3600 / 60;
            tm_hour := rem / 3600;
            tm_mday := d;
            tm_mon := m - 1;
            tm_year := y - 1900 |}
  else None.

(** Lines 184-185: the MS-DOS time and date, computed in [int] and stored
    in [uint16_t] fields. *)
Definition dos_time (t : tm) : Z :=
  to_u16 (to_int (to_int (to_int (Z.shiftl (tm_hour t) 11)
                          + to_int (Z.shiftl (tm_min t) 5))
                  + tm_sec t / 2)).

Definition dos_date (t : tm) : Z :=
  to_u16 (to_int (to_int (to_int (Z.shiftl (to_int (tm_year t - 80)) 9)
                          + to_int (Z.shiftl (to_int (tm_mon t + 1)) 5))
                  + tm_mday t)).

(** ** NPY headers (lines 86-110 and 266-296) *)

Definition NPY_ARRAY_ALIGN : Z := 64.

(** The 10 bytes of the packed struct [NpyHeader]. *)
Definition npy_header_bytes (header_len : Z) : bytes :=
  [0x93; 78; 85; 77; 80; 89] ++ [1] ++ [0] ++ le_bytes 2 header_len.

Definition sizeof_NpyHeader : Z := 10.

(** The element types [numpy_descr] is specialised for. *)
Inductive dtype :=
| int8_t | int16_t | int32_t | int64_t
| uint8_t | uint16_t | uint32_t | uint64_t
| float | double | char | complex_float | complex_double.

Definition numpy_descr (t : dtype) : bytes :=
  match t with
  | int8_t => str "|i1" | int16_t => str "<i2"
  | int32_t => str "<i4" | int64_t => str "<i8"
  | uint8_t => str "|u1" | uint16_t => str "<u2"
  | uint32_t => str "<u4" | uint64_t => str "<u8"
  | float => str "<f4" | double => str "<f8"
  | char => str "|S1"
  | complex_float => str "<c8" | complex_double => str "<c16"
  end.

Definition sizeof (t : dtype) : Z :=
  match t with
  | int8_t | uint8_t | char => 1
  | int16_t | uint16_t => 2
  | int32_t | uint32_t | float => 4
  | int64_t | uint64_t | double | complex_float => 8
  | complex_double => 16
  end.

Fixpoint digits (fuel : nat) (n : Z) (acc : bytes) : bytes :=
  match fuel with
  | O => acc
  | S f =>
    let acc := 48 + n mod 10 :: acc in
    if n / 10 =? 0 then acc else digits f (n / 10) acc
  end.

(** [std::to_string] of a [size_t]: at most 20 decimal digits. *)
Definition to_string (n : Z) : bytes := digits 20 n [].

(** [std::string::replace (pos, 2, p, 2)] *)
Definition replace2 (s : bytes) (pos : nat) (p : bytes) : bytes :=
  firstn pos s ++ p ++ skipn (pos + 2) s.

(** [NpzFile::create_npy_header] (lines 266-296); [None] when one of its
    assertions fails. *)
Definition create_npy_header (type_descr : bytes) (shape : list Z)
  : option bytes :=
  match shape with
  | [] => None
  | shape0 :: rest =>
    let header := npy_header_bytes (NPY_ARRAY_ALIGN - sizeof_NpyHeader) in
    let header := header ++ str "{'descr': '" in
    let header := header ++ type_descr in
    let header := header ++ str "', 'fortran_order': False, 'shape': (" in
    let header := header ++ to_string shape0 in
    let header :=
      fold_left (fun header d => (header ++ str ",") ++ to_string d) rest header in
    let header :=
      if (length shape =? 1)%nat then header ++ str "," else header in
    let header := header ++ str ")}" in
    let pad_count := NPY_ARRAY_ALIGN - (size header + 1) mod NPY_ARRAY_ALIGN in
    let header := header ++ repeat 32 (Z.to_nat pad_count) in
    let header := header ++ [10] in
    if size header <=? 0xffff then
      let header :=
        if size header >? NPY_ARRAY_ALIGN
        then replace2 header 8 (le_bytes 2 (to_u16 (size header - sizeof_NpyHeader)))
        else header in
      if size header mod NPY_ARRAY_ALIGN =? 0 then Some header else None
    else None
  end.

(** ** zlib *)

Definition Z_OK : Z := 0.
Definition Z_STREAM_END : Z := 1.
Definition Z_BUF_ERROR : Z := -5.

Inductive flush := Z_NO_FLUSH | Z_FINISH.

(** What the program uses of zlib.  [deflate_engine s input avail_out f]
    is one call of [deflate] on the internal state [s] with [input] at
    [next_in] and room for [avail_out] bytes: the return code, the number
    of input bytes consumed, the bytes produced and the next state.
    [deflateInit2] is the raw-deflate initialisation of line 207, [None]
    when it does not return [Z_OK]. *)
Class Zlib := {
  zstate : Type;
  deflateInit2 : option zstate;
  deflate_engine : zstate -> bytes -> Z -> flush -> Z * nat * bytes * zstate;
  compressBound : Z -> Z;
  zlib_crc32 : Z -> bytes -> Z
}.

Section WithZlib.
Context {zlib : Zlib}.

(** [z_stream].  [next_in] is the [avail_in] bytes at the input pointer,
    [next_out] an offset into the output vector.  [history] is a ghost
    field: input, flush mode and return code of every [deflate] call made
    on the stream. *)
Record z_stream := {
  next_in : bytes;
  avail_in : Z;
  total_in : Z;
  next_out : Z;
  avail_out : Z;
  total_out : Z;
  internal : zstate;
  history : list (bytes * flush * Z)
}.

(** Overwrites [buffer] from offset [off] with [p]. *)
Definition store (buffer : bytes) (off : Z) (p : bytes) : bytes :=
  firstn (Z.to_nat off) buffer ++ p ++
  skipn (Z.to_nat off + length p) buffer.

(** [deflate]: zlib reads at most [avail_in] bytes and writes at most
    [avail_out] bytes, and keeps the counters of the stream. *)
Definition deflate (strm : z_stream) (buffer : bytes) (f : flush)
  : Z * z_stream * bytes :=
  let '(ret, consumed, produced, s') :=
    deflate_engine (internal strm) (next_in strm) (avail_out strm) f in
  let c := Nat.min consumed (length (next_in strm)) in
  let p := firstn (Z.to_nat (avail_out strm)) produced in
  (ret,
   {| next_in := skipn c (next_in strm);
      avail_in := avail_in strm - Z.of_nat c;
      total_in := total_in strm + Z.of_nat c;
      next_out := next_out strm + size p;
      avail_out := avail_out strm - size p;
      total_out := total_out strm + size p;
      internal := s';
      history := history strm ++ [(next_in strm, f, ret)] |},
   store buffer (next_out strm) p).

(** [compress_chunk] (lines 150-164); [None] when an assertion fails.
    [avail_in] and [avail_out] are 32-bit fields. *)
Definition compress_chunk (strm : z_stream) (buffer : bytes)
    (source : bytes) (dest : Z) (dest_len : Z) (finish : bool)
  : option (z_stream * bytes) :=
  let strm1 :=
    {| next_in := firstn (Z.to_nat (to_u32 (size source))) source;
       avail_in := to_u32 (size source);
       total_in := total_in strm;
       next_out := dest;
       avail_out := to_u32 dest_len;
       total_out := total_out strm;
       internal := internal strm;
       history := history strm |} in
  let '(ret, strm2, buffer2) :=
    deflate strm1 buffer (if finish then Z_FINISH else Z_NO_FLUSH) in
  if finish then
    if ret =? Z_STREAM_END then Some (strm2, buffer2) else None
  else
    if (ret =? Z_OK) || (ret =? Z_BUF_ERROR) then Some (strm2, buffer2) else None.

(** [std::vector::resize] *)
Definition resize (v : bytes) (n : Z) : bytes :=
  firstn (Z.to_nat n) v ++ repeat 0 (Z.to_nat n - length v).

Inductive deflated :=
| InitFailed
| AssertionFailed
| Deflated (strm : z_stream) (compressed : bytes).

(** The deflate branch of [add_file_from_buffers] (lines 202-227): the
    stream at [deflateEnd] and the vector [compressed] after its final
    resize. *)
Definition deflate_payload (buf0 : bytes) (buf1 : option bytes)
    (total_size : Z) : deflated :=
  match deflateInit2 with
  | None => InitFailed
  | Some s0 =>
    let strm :=
      {| next_in := []; avail_in := 0; total_in := 0; next_out := 0;
         avail_out := 0; total_out := 0; internal := s0; history := [] |} in
    let compressed := resize [] (compressBound total_size) in
    match compress_chunk strm compressed buf0 0 (size compressed)
            (match buf1 with None => true | Some _ => false end) with
    | None => AssertionFailed
    | Some (strm1, compressed1) =>
      if avail_in strm1 =? 0 then
        let compressed_size := total_out strm1 in
        let after_second :=
          match buf1 with
          | Some b1 =>
            compress_chunk strm1 compressed1 b1 compressed_size
              (size compressed1 - compressed_size) true
          | None => Some (strm1, compressed1)
          end in
        match after_second with
        | None => AssertionFailed
        | Some (strm2, compressed2) =>
          let compressed_size := total_out strm2 in
          if total_in strm2 =? total_size
          then Deflated strm2 (resize compressed2 compressed_size)
          else AssertionFailed
        end
      else AssertionFailed
    end
  end.

(** ** NpzFile *)

Record NpzFile := {
  filename_ : bytes;
  fs_ : ofstream;
  central_dir_ : ostringstream;
  num_entries_ : Z
}.

Inductive exception := runtime_error (what : bytes).

Inductive outcome (A : Type) :=
| Returned (r : A) (st : NpzFile)
| Thrown (e : exception) (st : NpzFile)
| Aborted.
#[global] Arguments Returned {A} r st.
#[global] Arguments Thrown {A} e st.
#[global] Arguments Aborted {A}.

(** Lines 70-73. *)
Definition filename_with_extension (filename extension : bytes) : bytes :=
  if ends_with filename extension then filename else filename ++ extension.

(** The constructor (lines 113-121); [openable] tells whether the file can
    be opened for writing.  The file is truncated. *)
Definition NpzFile_new (filename : bytes) (openable : bool)
  : exception + NpzFile :=
  let name := if ends_with filename (str ".zip") then filename
              else filename_with_extension filename (str ".npz") in
  if openable then
    inr {| filename_ := name;
           fs_ := {| contents := []; is_open := true; failed := false |};
           central_dir_ := [];
           num_entries_ := 0 |}
  else inl (runtime_error (str "Failed to open file: " ++ name)).

(** A freshly opened archive. *)
Definition fresh (filename : bytes) : NpzFile :=
  {| filename_ := if ends_with filename (str ".zip") then filename
                  else filename_with_extension filename (str ".npz");
     fs_ := {| contents := []; is_open := true; failed := false |};
     central_dir_ := [];
     num_entries_ := 0 |}.

Definition num_files (st : NpzFile) : Z := num_entries_ st.

(** [NpzFile::close] (lines 134-148). *)
Definition close (st : NpzFile) : outcome unit :=
  let central_dir := central_dir_ st in
  let central_dir_offset := to_u32 (tellp (fs_ st)) in
  let eocd :=
    {| signature := 0x06054b50;
       disk_number := 0;
       central_directory_disk_number := 0;
       num_entries_on_disk := num_entries_ st;
       num_entries_total := num_entries_ st;
       central_directory_size := to_u32 (size central_dir);
       central_directory_offset := central_dir_offset;
       comment_size := 0 |} in
  let fs1 := write (fs_ st) central_dir in
  let fs2 := write fs1 (eocd_bytes eocd) in
  Returned tt {| filename_ := filename_ st;
                 fs_ := fs_close fs2;
                 central_dir_ := central_dir_ st;
                 num_entries_ := num_entries_ st |}.

(** The destructor (lines 123-126). *)
Definition NpzFile_delete (st : NpzFile) : outcome unit := close st.

Definition size_opt (buf : option bytes) : Z :=
  match buf with Some b => size b | None => 0 end.

(** The local header as [add_file_from_buffers] fills it in (lines 179-230):
    the defaults of the struct, and the fields the function assigns. *)
Definition fill_local_header (utctm : tm)
    (compression_method crc compressed_size total_size filename_length : Z)
  : ZipLocalFileHeader :=
  {| version_needed_to_extract := VERSION_MADE_BY;
     general_purpose_bit_flag := 0;
     compression_method := compression_method;
     last_mod_file_time := dos_time utctm;
     last_mod_file_date := dos_date utctm;
     crc32 := crc;
     compressed_size := compressed_size;
     uncompressed_size := total_size;
     filename_length := to_u16 filename_length;
     extra_field_length := 0 |}.

(** [NpzFile::add_file_from_buffers] (lines 167-255).  [buf1 = None] is a
    null second buffer. *)
Definition add_file_from_buffers (now : Z) (name : bytes)
    (buf0 : bytes) (buf1 : option bytes)
    (timestamp : Z) (compression : CompressionMethod) (st : NpzFile)
  : outcome Z :=
  let use_crc := false in
  let st := {| filename_ := filename_ st; fs_ := fs_ st;
               central_dir_ := central_dir_ st;
               num_entries_ := to_u16 (num_entries_ st + 1) |} in
  if size name >? 0xffff then
    Thrown (runtime_error (str "Filename too long: " ++ name)) st
  else
  let filename_length := to_u32 (size name) in
  let timestamp := if timestamp =? 0 then now else timestamp in
  match gmtime timestamp with
  | None => Aborted
  | Some utctm =>
  let crc :=
    if use_crc : bool
    then match buf1 with Some b1 => zlib_crc32 0 b1 | None => 0 end
    else 0 in
  let total_size := to_u32 (size buf0 + size_opt buf1) in
  let header compression_method compressed_size :=
    fill_local_header utctm compression_method crc compressed_size
      total_size filename_length in
  let compressing :=
    match compression with
    | DEFLATE =>
      match deflate_payload buf0 buf1 total_size with
      | InitFailed => inl (Thrown (runtime_error (str "Failed to initialize zlib")) st)
      | AssertionFailed => inl Aborted
      | Deflated strm compressed =>
        inr (header (method_code DEFLATE) (to_u32 (total_out strm)), compressed)
      end
    | STORED => inr (header (method_code STORED) total_size, [])
    end in
  match compressing with
  | inl stop => stop
  | inr (local_header, compressed) =>
    (* Write local header *)
    let local_header_offset := to_u32 (tellp (fs_ st)) in
    let fs := write4 (fs_ st) ZIP_LOCAL_FILE_HEADER_SIG in
    let fs := write fs (local_header_bytes local_header) in
    let fs := write fs (firstn (Z.to_nat filename_length) name) in
    let fs :=
      match compression with
      | DEFLATE => write fs compressed
      | STORED =>
        let fs := write fs buf0 in
        match buf1 with Some b1 => write fs b1 | None => fs end
      end in
    (* Add to central directory *)
    let cd := write4 (central_dir_ st) ZIP_CENTRAL_DIRECTORY_FILE_HEADER_SIG in
    let cd := write2 cd VERSION_MADE_BY in
    let cd := write cd (local_header_bytes local_header) in
    let suffix :=
      {| file_comment_length := 0;
         disk_number_start := 0;
         internal_file_attr := 0;
         external_file_attr := 0;
         relative_offset_of_local_header := local_header_offset |} in
    let cd := write cd (suffix_bytes suffix) in
    let cd := write cd (firstn (Z.to_nat filename_length) name) in
    Returned (compressed_size local_header)
      {| filename_ := filename_ st; fs_ := fs;
         central_dir_ := cd; num_entries_ := num_entries_ st |}
  end
  end.

(** The two [add_file] overloads of cnpz.h (lines 37-42): one buffer, the
    default method. *)
Definition add_file (now : Z) (name data : bytes) (timestamp : Z)
    (st : NpzFile) : outcome unit :=
  match add_file_from_buffers now name data None timestamp STORED st with
  | Returned _ st' => Returned tt st'
  | Thrown e st' => Thrown e st'
  | Aborted => Aborted
  end.

(** [std::accumulate] with the [int] seed 1 and [std::multiplies<size_t>]
    (line 262): every product is taken in [size_t] and stored back into an
    [int]. *)
Definition shape_product (shape : list Z) : Z :=
  fold_left (fun acc d => to_int (to_u64 (to_u64 acc * d))) shape 1.

(** [write] with a count that is negative as [std::streamsize]: the stream
    buffer puts no byte, which is not the count asked for, and the stream
    sets [badbit] (a stream that had failed stays failed). *)
Definition fs_write_negative (s : ofstream) : ofstream :=
  {| contents := contents s; is_open := is_open s; failed := true |}.

(** [NpzFile::add_file_from_buffers] (lines 167-255) as line 263 calls it
    when the second buffer is not null and its size [size1], a [size_t], is
    2^63 or more: the default method [STORED], where the count of the last
    write (line 241) is negative as [std::streamsize].  The buffer is not
    read: [use_crc] is false and the write puts nothing. *)
Definition add_file_from_buffers_negative (now : Z) (name buf0 : bytes)
    (size1 : Z) (timestamp : Z) (st : NpzFile) : outcome Z :=
  let st := {| filename_ := filename_ st; fs_ := fs_ st;
               central_dir_ := central_dir_ st;
               num_entries_ := to_u16 (num_entries_ st + 1) |} in
  if size name >? 0xffff then
    Thrown (runtime_error (str "Filename too long: " ++ name)) st
  else
  let filename_length := to_u32 (size name) in
  let timestamp := if timestamp =? 0 then now else timestamp in
  match gmtime timestamp with
  | None => Aborted
  | Some utctm =>
    let crc := 0 in
    let total_size := to_u32 (to_u64 (size buf0 + size1)) in
    let local_header :=
      fill_local_header utctm (method_code STORED) crc total_size
        total_size filename_length in
    (* Write local header *)
    let local_header_offset := to_u32 (tellp (fs_ st)) in
    let fs := write4 (fs_ st) ZIP_LOCAL_FILE_HEADER_SIG in
    let fs := write fs (local_header_bytes local_header) in
    let fs := write fs (firstn (Z.to_nat filename_length) name) in
    let fs := write fs buf0 in
    let fs := fs_write_negative fs in
    (* Add to central directory *)
    let cd := write4 (central_dir_ st) ZIP_CENTRAL_DIRECTORY_FILE_HEADER_SIG in
    let cd := write2 cd VERSION_MADE_BY in
    let cd := write cd (local_header_bytes local_header) in
    let suffix :=
      {| file_comment_length := 0;
         disk_number_start := 0;
         internal_file_attr := 0;
         external_file_attr := 0;
         relative_offset_of_local_header := local_header_offset |} in
    let cd := write cd (suffix_bytes suffix) in
    let cd := write cd (firstn (Z.to_nat filename_length) name) in
    Returned (compressed_size local_header)
      {| filename_ := filename_ st; fs_ := fs;
         central_dir_ := cd; num_entries_ := num_entries_ st |}
  end.

(** [NpzFile::add_array_of_type] (lines 257-264).  [data] is the memory
    readable at the data pointer, [None] for a null pointer.  The byte count
    [data_size] is a [size_t]: the [int] that [std::accumulate] returns is
    converted (sign-extended) and multiplied by [type_size] modulo 2^64.  A
    count below 2^63 is read from the data, and reading past them ends the
    run; a count of 2^63 or more is negative as the [std::streamsize] of
    [write] and nothing is read. *)
Definition add_array_of_type (now : Z) (name type_descr : bytes)
    (type_size : Z) (data : option bytes) (shape : list Z) (timestamp : Z)
    (st : NpzFile) : outcome Z :=
  match create_npy_header type_descr shape with
  | None => Aborted
  | Some npy_header =>
    let full_name := filename_with_extension name (str ".npy") in
    let data_size := to_u64 (to_u64 (shape_product shape) * type_size) in
    match data with
    | None =>
      add_file_from_buffers now full_name npy_header None timestamp STORED st
    | Some d =>
      if 2 ^ 63 <=? data_size then
        add_file_from_buffers_negative now full_name npy_header data_size
          timestamp st
      else if data_size <=? size d then
        add_file_from_buffers now full_name npy_header
          (Some (firstn (Z.to_nat data_size) d)) timestamp STORED st
      else Aborted
    end
  end.

(** [NpzFile::add_array<T>] (cnpz.h, lines 44-48). *)
Definition add_array (now : Z) (t : dtype) (name : bytes)
    (data : option bytes) (shape : list Z) (timestamp : Z) (st : NpzFile)
  : outcome Z :=
  add_array_of_type now name (numpy_descr t) (sizeof t) data shape timestamp st.

(** One call of [add_file_from_buffers], with the reading of the clock
    during the call. *)
Record call := {
  c_now : Z;
  c_name : bytes;
  c_buf0 : bytes;
  c_buf1 : option bytes;
  c_timestamp : Z;
  c_compression : CompressionMethod
}.

Definition add_call (c : call) (st : NpzFile) : outcome Z :=
  add_file_from_buffers (c_now c) (c_name c) (c_buf0 c) (c_buf1 c)
    (c_timestamp c) (c_compression c) st.

(** A sequence of additions, each returning normally. *)
Fixpoint add_all (cs : list call) (st : NpzFile) : outcome unit :=
  match cs with
  | [] => Returned tt st
  | c :: rest =>
    match add_call c st with
    | Returned _ st' => add_all rest st'
    | Thrown e st' => Thrown e st'
    | Aborted => Aborted
    end
  end.

End WithZlib.

(** A minimal instance of the zlib interface, for running the operations
    on concrete inputs: it takes all the input it is given, keeps nothing,
    and on [Z_FINISH] emits the two bytes of an empty final block, which is
    what zlib emits for an empty stream.  [compressBound] is zlib's. *)
Definition null_engine (s : unit) (input : bytes) (avail_out : Z) (f : flush)
  : Z * nat * bytes * unit :=
  match f with
  | Z_NO_FLUSH => (Z_OK, length input, [], tt)
  | Z_FINISH =>
    if 2 <=? avail_out then (Z_STREAM_END, length input, [3; 0], tt)
    else (Z_BUF_ERROR, length input, [], tt)
  end.

Definition null_zlib : Zlib :=
  {| zstate := unit;
     deflateInit2 := Some tt;
     deflate_engine := null_engine;
     compressBound := fun n =>
       n + Z.shiftr n 12 + Z.shiftr n 14 + Z.shiftr n 25 + 13;
     zlib_crc32 := fun crc _ => crc |}.

(** ** Reading the records back *)

(** A central-directory record as a reader of the archive sees it. *)
Record cd_record := {
  cd_version_made_by : Z;
  cd_method : Z;
  cd_time : Z;
  cd_date : Z;
  cd_compressed_size : Z;
  cd_uncompressed_size : Z;
  cd_offset : Z;
  cd_name : bytes
}.

(** A central directory is a sequence of records: each starts with the
    signature and has 46 fixed bytes, then the name, the extra field and
    the comment, whose lengths are fields of the record. *)
Definition record_length (bs : bytes) : nat :=
  46 + Z.to_nat (field 28 2 bs) + Z.to_nat (field 30 2 bs)
  + Z.to_nat (field 32 2 bs).

Definition record_ok (bs : bytes) : bool :=
  (field 0 4 bs =? ZIP_CENTRAL_DIRECTORY_FILE_HEADER_SIG)
  && (record_length bs <=? length bs)%nat.

Definition record_at (bs : bytes) : cd_record :=
  {| cd_version_made_by := field 4 2 bs;
     cd_method := field 10 2 bs;
     cd_time := field 12 2 bs;
     cd_date := field 14 2 bs;
     cd_compressed_size := field 20 4 bs;
     cd_uncompressed_size := field 24 4 bs;
     cd_offset := field 42 4 bs;
     cd_name := firstn (Z.to_nat (field 28 2 bs)) (skipn 46 bs) |}.

Fixpoint parse_records (fuel : nat) (bs : bytes) : option (list cd_record) :=
  match bs with
  | [] => Some []
  | _ :: _ =>
    match fuel with
    | O => None
    | S f =>
      if record_ok bs
      then option_map (cons (record_at bs))
             (parse_records f (skipn (record_length bs) bs))
      else None
    end
  end.

Definition parse_central_dir (bs : bytes) : option (list cd_record) :=
  parse_records (length bs) bs.

(** The end-of-directory record is the last 22 bytes of a closed archive. *)
Definition trailer (out : bytes) : bytes := skipn (length out - 22) out.

Definition trailer_entries (out : bytes) : Z := field 10 2 (trailer out).
Definition trailer_size (out : bytes) : Z := field 12 4 (trailer out).
Definition trailer_offset (out : bytes) : Z := field 16 4 (trailer out).

(** A stream that is open and has not failed. *)
Definition good (s : ofstream) : Prop := is_open s = true /\ failed s = false.

(** ** Vocabulary of the statements *)

(** [p] holds of the [n] integers from [i] on. *)
Fixpoint all_from (n : nat) (i : Z) (p : Z -> bool) : bool :=
  match n with
  | O => true
  | S k => p i && all_from k (i + 1) p
  end.

(** The ranges of the year of the era, the month and the day. *)
Definition month_day_ok (doe : Z) : bool :=
  let '(y, m, d) := civil_of_doe doe in
  (0 <=? y) && (y <=? 400) && (1 <=? m) && (m <=? 12) && (1 <=? d) && (d <=? 31).

(** The bytes an entry puts in the sink and in the central directory. *)
Definition local_entry (h : ZipLocalFileHeader) (name payload : bytes) : bytes :=
  le_bytes 4 ZIP_LOCAL_FILE_HEADER_SIG ++ local_header_bytes h ++ name ++ payload.

Definition central_entry (h : ZipLocalFileHeader) (offset : Z) (name : bytes)
  : bytes :=
  le_bytes 4 ZIP_CENTRAL_DIRECTORY_FILE_HEADER_SIG ++
  le_bytes 2 VERSION_MADE_BY ++
  local_header_bytes h ++
  suffix_bytes {| file_comment_length := 0; disk_number_start := 0;
                  internal_file_attr := 0; external_file_attr := 0;
                  relative_offset_of_local_header := offset |} ++
  name.

(** The spec's rendering of a shape: a lone dimension is followed by a
    comma, several dimensions are joined by commas. *)
Fixpoint join (sep : bytes) (l : list bytes) : bytes :=
  match l with
  | [] => []
  | [x] => x
  | x :: rest => x ++ sep ++ join sep rest
  end.

Definition shape_text (shape : list Z) : bytes :=
  match shape with
  | [d0] => to_string d0 ++ str ","
  | _ => join (str ",") (map to_string shape)
  end.

Definition dictionary (type_descr : bytes) (shape : list Z) : bytes :=
  str "{'descr': '" ++ type_descr
  ++ str "', 'fortran_order': False, 'shape': (" ++ shape_text shape ++ str ")}".

(** Magic string and version: the first 8 bytes of every header. *)
Definition npy_magic : bytes := [0x93; 78; 85; 77; 80; 89; 1; 0].

(** Length of the header before padding, and after. *)
Definition unpadded_size (type_descr : bytes) (shape : list Z) : Z :=
  sizeof_NpyHeader + size (dictionary type_descr shape).

Definition pad_count (n : Z) : Z := 64 - (n + 1) mod 64.

(** The number a string of decimal digits denotes. *)
Definition decimal (ds : bytes) : Z :=
  fold_left (fun v b => 10 * v + (b - 48)) ds 0.

(** The record a reader finds for an entry written by the program. *)
Definition record_of_entry (h : ZipLocalFileHeader) (offset : Z) (name : bytes)
  : cd_record :=
  {| cd_version_made_by := VERSION_MADE_BY;
     cd_method := to_u16 (compression_method h);
     cd_time := to_u16 (last_mod_file_time h);
     cd_date := to_u16 (last_mod_file_date h);
     cd_compressed_size := to_u32 (compressed_size h);
     cd_uncompressed_size := to_u32 (uncompressed_size h);
     cd_offset := to_u32 offset;
     cd_name := name |}.

(** The bytes of a fragment that [compress_chunk] hands to zlib. *)
Definition fed (source : bytes) : bytes :=
  firstn (Z.to_nat (to_u32 (size source))) source.

(** The clock of the runs below: 2023-11-14 22:13:20 UTC. *)
Definition a_clock : Z := 1700000000.

Definition stored_call (name buf0 : bytes) : call :=
  {| c_now := a_clock; c_name := name; c_buf0 := buf0; c_buf1 := None;
     c_timestamp := 0; c_compression := STORED |}.

Definition bubble : list call :=
  [stored_call (str "bubble.txt") (str "Words are loud" ++ [10]);
   stored_call (str "second.txt") (str "more")].

Definition after_bubble : NpzFile :=
  Eval vm_compute in
    match add_all (zlib := null_zlib) bubble (fresh (str "ziptest.zip")) with
    | Returned _ st => st
    | _ => fresh []
    end.

Definition huge : bytes := repeat 0 (Z.to_nat (2 ^ 32)).

(** A deflated entry of two fragments, stamped 2000-01-01 00:00:00 UTC. *)
Definition stamped_call : call :=
  {| c_now := a_clock; c_name := str "a"; c_buf0 := str "x";
     c_buf1 := Some (str "yz"); c_timestamp := 946684800;
     c_compression := DEFLATE |}.

Definition after_stamped : NpzFile :=
  Eval vm_compute in
    match add_call (zlib := null_zlib) stamped_call (fresh (str "t.zip")) with
    | Returned _ st => st
    | _ => fresh []
    end.

Definition after_first : NpzFile :=
  Eval vm_compute in
    match add_all (zlib := null_zlib) (firstn 1 bubble) (fresh (str "ziptest.zip")) with
    | Returned _ st => st
    | _ => fresh []
    end.

(** The bytes of [l] before the first [c], and those after it. *)
Fixpoint until (c : Z) (l : bytes) : bytes :=
  match l with
  | [] => []
  | b :: rest => if b =? c then [] else b :: until c rest
  end.

Fixpoint after (c : Z) (l : bytes) : bytes :=
  match l with
  | [] => []
  | b :: rest => if b =? c then rest else after c rest
  end.

(** The pieces of [l] between the occurrences of [c]. *)
Fixpoint split_on (c : Z) (l : bytes) : list bytes :=
  match l with
  | [] => [[]]
  | b :: rest =>
    if b =? c then [] :: split_on c rest
    else match split_on c rest with
         | [] => [[b]]
         | p :: ps => (b :: p) :: ps
         end
  end.

Definition nonempty (p : bytes) : bool :=
  match p with [] => false | _ :: _ => true end.

(** A reader of array headers: past the 10 bytes of [NpyHeader], the shape
    is what stands between the first opening and the next closing
    parenthesis, as decimal numbers separated by commas. *)
Definition read_shape (header : bytes) : list Z :=
  map decimal
    (filter nonempty (split_on 44 (until 41 (after 40 (skipn 10 header))))).

(** The product of the dimensions, as a number. *)
Definition product (shape : list Z) : Z := fold_left Z.mul shape 1.




(** A zlib whose initialisation fails (no memory). *)
Definition failing_zlib : Zlib :=
  {| zstate := unit;
     deflateInit2 := None;
     deflate_engine := null_engine;
     compressBound := fun n => n + 13;
     zlib_crc32 := fun crc _ => crc |}.

(** The archive of the two entries, closed. *)
Definition closed_bubble : NpzFile :=
  Eval vm_compute in
    match close after_bubble with
    | Returned _ st => st
    | _ => fresh []
    end.

(** The instant whose calendar fields a call records (lines 180-183): the
    reading of the clock for the timestamp 0, the timestamp otherwise. *)
Definition recorded_instant (now timestamp : Z) : Z :=
  if timestamp =? 0 then now else timestamp.




(** The bytes one [deflate] call may write: what the engine produced, cut
    to the room [avail_out] it was given; and the state it leaves. *)
Definition produced {zlib : Zlib} (s : zstate) (input : bytes) (room : Z)
    (f : flush) : bytes :=
  let '(_, _, out, _) := deflate_engine s input room f in
  firstn (Z.to_nat room) out.

Definition state_after {zlib : Zlib} (s : zstate) (input : bytes) (room : Z)
    (f : flush) : zstate :=
  let '(_, _, _, s') := deflate_engine s input room f in s'.


(** ** Fixed-width integers *)

Lemma length_le_bytes n v : length (le_bytes n v) = n.
Proof. revert v; induction n; intros; simpl; auto. Qed.

Lemma le_value_le_bytes n v : le_value (le_bytes n v) = v mod 256 ^ Z.of_nat n.
Proof.
  revert v; induction n; intros v.
  - simpl. now rewrite Z.mod_1_r.
  - cbn [le_bytes le_value]. rewrite IHn, Nat2Z.inj_succ, Z.pow_succ_r by lia.
    rewrite Z.rem_mul_r; lia.
Qed.

Lemma le_value_2 v : le_value (le_bytes 2 v) = to_u16 v.
Proof. now rewrite le_value_le_bytes. Qed.

Lemma le_value_4 v : le_value (le_bytes 4 v) = to_u32 v.
Proof. now rewrite le_value_le_bytes. Qed.

Lemma to_u16_idem v : to_u16 (to_u16 v) = to_u16 v.
Proof. unfold to_u16. now rewrite Z.mod_mod. Qed.

Lemma to_u32_idem v : to_u32 (to_u32 v) = to_u32 v.
Proof. unfold to_u32. now rewrite Z.mod_mod. Qed.

Lemma to_u16_small v : 0 <= v < 65536 -> to_u16 v = v.
Proof. intros. unfold to_u16. now rewrite Z.mod_small. Qed.

Lemma to_u32_small v : 0 <= v < 2 ^ 32 -> to_u32 v = v.
Proof. intros. unfold to_u32. now rewrite Z.mod_small. Qed.

Lemma to_int_small v : - 2 ^ 31 <= v < 2 ^ 31 -> to_int v = v.
Proof. intros. unfold to_int. rewrite Z.mod_small; lia. Qed.

Lemma to_int_eqm v : exists q, to_int v = v + 2 ^ 32 * q.
Proof.
  unfold to_int. exists (- ((v + 2 ^ 31) / 2 ^ 32)).
  pose proof (Z.div_mod (v + 2 ^ 31) (2 ^ 32)). lia.
Qed.

Lemma to_u16_shift v q : to_u16 (v + 2 ^ 32 * q) = to_u16 v.
Proof.
  unfold to_u16. replace (v + 2 ^ 32 * q) with (v + (2 ^ 16 * q) * 2 ^ 16) by lia.
  apply Z_mod_plus_full.
Qed.

(** ** The calendar *)

Lemma all_from_spec n : forall i p, all_from n i p = true ->
  forall j, i <= j < i + Z.of_nat n -> p j = true.
Proof.
  induction n; intros i p H j Hj; [lia|].
  cbn [all_from] in H. apply andb_prop in H as [H0 H1].
  destruct (Z.eq_dec j i) as [->|]; [assumption|].
  apply (IHn _ _ H1). lia.
Qed.

Lemma civil_of_doe_range doe : 0 <= doe < 146097 ->
  month_day_ok doe = true.
Proof.
  intros H.
  apply (all_from_spec (Z.to_nat 146097) 0 month_day_ok); [|lia].
  vm_compute. reflexivity.
Qed.

Lemma gmtime_range t u : gmtime t = Some u ->
  0 <= tm_sec u < 60 /\ 0 <= tm_min u < 60 /\ 0 <= tm_hour u < 24 /\
  1 <= tm_mday u <= 31 /\ 0 <= tm_mon u <= 11 /\
  - 2 ^ 31 <= tm_year u < 2 ^ 31.
Proof.
  unfold gmtime, civil_from_days.
  set (z := t / 86400 + 719468).
  assert (Hdoe : 0 <= z - z / 146097 * 146097 < 146097).
  { pose proof (Z.div_mod z 146097). pose proof (Z.mod_pos_bound z 146097). lia. }
  pose proof (civil_of_doe_range _ Hdoe) as Hok. unfold month_day_ok in Hok.
  destruct (civil_of_doe _) as [[y m] d].
  destruct ((- 2 ^ 31 <=? _) && _) eqn:Hy; [|discriminate].
  intros [= <-]; cbn [tm_sec tm_min tm_hour tm_mday tm_mon tm_year].
  pose proof (Z.mod_pos_bound t 86400).
  repeat (apply andb_prop in Hok as [Hok ?]).
  apply andb_prop in Hy as [? ?].
  repeat split; try lia;
    try (apply Z.mod_pos_bound; lia);
    try (apply Z.div_pos; try apply Z.mod_pos_bound; lia);
    try (apply Z.div_lt_upper_bound; try lia;
         pose proof (Z.mod_pos_bound (t mod 86400) 3600); lia).
Qed.

(** [gmtime] answers for every instant within 2^55 seconds of the epoch:
    every 32-bit [time_t], and the next billion years. *)
Lemma gmtime_defined t : - 2 ^ 55 <= t < 2 ^ 55 -> exists u, gmtime t = Some u.
Proof.
  intros Ht. unfold gmtime, civil_from_days.
  set (z := t / 86400 + 719468).
  assert (Hdoe : 0 <= z - z / 146097 * 146097 < 146097).
  { pose proof (Z.div_mod z 146097). pose proof (Z.mod_pos_bound z 146097). lia. }
  pose proof (civil_of_doe_range _ Hdoe) as Hok. unfold month_day_ok in Hok.
  destruct (civil_of_doe _) as [[y m] d].
  repeat (apply andb_prop in Hok as [Hok ?]).
  assert (Hy : (- 2 ^ 31 <=? y + z / 146097 * 400 - 1900)
               && (y + z / 146097 * 400 - 1900 <? 2 ^ 31) = true).
  { pose proof (Z.div_mod t 86400 ltac:(lia)).
    pose proof (Z.mod_pos_bound t 86400 ltac:(lia)).
    pose proof (Z.div_mod z 146097 ltac:(lia)).
    pose proof (Z.mod_pos_bound z 146097 ltac:(lia)).
    apply andb_true_intro. split; [apply Z.leb_le|apply Z.ltb_lt]; subst z; lia. }
  rewrite Hy. eexists. reflexivity.
Qed.

Example gmtime_epoch :
  gmtime 0 = Some {| tm_sec := 0; tm_min := 0; tm_hour := 0; tm_mday := 1;
                     tm_mon := 0; tm_year := 70 |}.
Proof. reflexivity. Qed.

Example gmtime_leap_day :
  gmtime 951827696
  = Some {| tm_sec := 56; tm_min := 34; tm_hour := 12; tm_mday := 29;
            tm_mon := 1; tm_year := 100 |}.
Proof. reflexivity. Qed.

Example gmtime_before_epoch :
  gmtime (-1) = Some {| tm_sec := 59; tm_min := 59; tm_hour := 23;
                        tm_mday := 31; tm_mon := 11; tm_year := 69 |}.
Proof. reflexivity. Qed.

(** The time field is the formula itself. *)
Lemma dos_time_formula t u : gmtime t = Some u ->
  dos_time u = tm_hour u * 2048 + tm_min u * 32 + tm_sec u / 2.
Proof.
  intros H. apply gmtime_range in H as (Hs & Hm & Hh & _).
  unfold dos_time. rewrite !Z.shiftl_mul_pow2 by lia.
  assert (0 <= tm_sec u / 2 < 30) by (split; [apply Z.div_pos|apply Z.div_lt_upper_bound]; lia).
  rewrite (to_int_small (tm_hour u * 2 ^ 11)) by lia.
  rewrite (to_int_small (tm_min u * 2 ^ 5)) by lia.
  rewrite (to_int_small (tm_hour u * 2 ^ 11 + tm_min u * 2 ^ 5)) by lia.
  rewrite to_int_small by lia.
  rewrite to_u16_small; lia.
Qed.

(** The date field is the formula reduced to 16 bits. *)
Lemma dos_date_formula t u : gmtime t = Some u ->
  dos_date u =
  to_u16 ((tm_year u + 1900 - 1980) * 512 + (tm_mon u + 1) * 32 + tm_mday u).
Proof.
  intros H. apply gmtime_range in H as (_ & _ & _ & Hd & Hm & Hy).
  unfold dos_date. rewrite !Z.shiftl_mul_pow2 by lia.
  rewrite (to_int_small (tm_mon u + 1)) by lia.
  rewrite (to_int_small ((tm_mon u + 1) * 2 ^ 5)) by lia.
  destruct (to_int_eqm (tm_year u - 80)) as [q1 ->].
  destruct (to_int_eqm ((tm_year u - 80 + 2 ^ 32 * q1) * 2 ^ 9)) as [q2 ->].
  destruct (to_int_eqm ((tm_year u - 80 + 2 ^ 32 * q1) * 2 ^ 9 + 2 ^ 32 * q2
                        + (tm_mon u + 1) * 2 ^ 5)) as [q3 ->].
  destruct (to_int_eqm ((tm_year u - 80 + 2 ^ 32 * q1) * 2 ^ 9 + 2 ^ 32 * q2
                        + (tm_mon u + 1) * 2 ^ 5 + 2 ^ 32 * q3 + tm_mday u)) as [q4 ->].
  rewrite <- (to_u16_shift
    ((tm_year u + 1900 - 1980) * 512 + (tm_mon u + 1) * 32 + tm_mday u)
    (q1 * 2 ^ 9 + q2 + q3 + q4)).
  f_equal. lia.
Qed.

Lemma dos_date_exact t u : gmtime t = Some u ->
  1980 <= tm_year u + 1900 <= 2107 ->
  dos_date u = (tm_year u + 1900 - 1980) * 512 + (tm_mon u + 1) * 32 + tm_mday u.
Proof.
  intros H Hy. rewrite (dos_date_formula _ _ H).
  apply gmtime_range in H as (_ & _ & _ & Hd & Hm & _).
  apply to_u16_small. lia.
Qed.

(** ** One addition *)

Lemma size_nonneg s : 0 <= size s.
Proof. unfold size. lia. Qed.

Lemma size_app a b : size (a ++ b) = size a + size b.
Proof. unfold size. rewrite length_app. lia. Qed.

Lemma good_tellp s : good s -> tellp s = size (contents s).
Proof. intros [Ho Hf]. unfold tellp. now rewrite Hf, Ho. Qed.

Lemma good_write s bs : good s ->
  good (write s bs) /\ contents (write s bs) = contents s ++ bs.
Proof.
  intros [Ho Hf]. cbn [write ofstream_ostream]. unfold fs_write.
  rewrite Hf, Ho. cbn. repeat split.
Qed.

Lemma firstn_name name : size name <= 0xffff ->
  firstn (Z.to_nat (to_u32 (size name))) name = name.
Proof.
  intros H. pose proof (size_nonneg name).
  rewrite to_u32_small by lia. unfold size. rewrite Nat2Z.id. apply firstn_all.
Qed.

(** Fields of a record found behind a prefix. *)
Lemma field_app_r a off n b :
  field (length a + off) n (a ++ b) = field off n b.
Proof.
  unfold field. rewrite skipn_app, skipn_all2 by lia.
  now replace (length a + off - length a)%nat with off by lia.
Qed.

Lemma le2 v : v mod 256 + 256 * ((v / 256) mod 256 + 256 * 0) = to_u16 v.
Proof. exact (le_value_2 v). Qed.

Lemma le4 v :
  v mod 256 + 256 * ((v / 256) mod 256 + 256 * ((v / 256 / 256) mod 256
    + 256 * ((v / 256 / 256 / 256) mod 256 + 256 * 0))) = to_u32 v.
Proof. exact (le_value_4 v). Qed.

Ltac read_field :=
  unfold field, local_entry, central_entry, local_header_bytes, suffix_bytes,
    eocd_bytes;
  cbn [le_bytes app firstn skipn le_value
       version_needed_to_extract general_purpose_bit_flag compression_method
       last_mod_file_time last_mod_file_date crc32 compressed_size
       uncompressed_size filename_length extra_field_length
       file_comment_length disk_number_start internal_file_attr
       external_file_attr relative_offset_of_local_header
       signature disk_number central_directory_disk_number
       num_entries_on_disk num_entries_total central_directory_size
       central_directory_offset comment_size];
  first [apply le2 | apply le4].

Lemma local_entry_signature h name payload :
  field 0 4 (local_entry h name payload) = ZIP_LOCAL_FILE_HEADER_SIG.
Proof. read_field. Qed.

Lemma local_entry_time h name payload :
  field 10 2 (local_entry h name payload) = to_u16 (last_mod_file_time h).
Proof. read_field. Qed.

Lemma local_entry_date h name payload :
  field 12 2 (local_entry h name payload) = to_u16 (last_mod_file_date h).
Proof. read_field. Qed.

Lemma length_local_header_bytes h : length (local_header_bytes h) = 26%nat.
Proof. reflexivity. Qed.

Lemma length_local_entry h name payload :
  length (local_entry h name payload) = (30 + length name + length payload)%nat.
Proof.
  unfold local_entry. rewrite !length_app, length_local_header_bytes.
  reflexivity.
Qed.

Lemma length_central_entry h off name :
  length (central_entry h off name) = (46 + length name)%nat.
Proof.
  unfold central_entry. rewrite !length_app, length_local_header_bytes.
  reflexivity.
Qed.

Lemma dos_time_u16 u : to_u16 (dos_time u) = dos_time u.
Proof. apply to_u16_idem. Qed.

Lemma dos_date_u16 u : to_u16 (dos_date u) = dos_date u.
Proof. apply to_u16_idem. Qed.

(** ** Closing *)

Lemma closed_write s bs : is_open s = false ->
  is_open (write s bs) = false /\ contents (write s bs) = contents s.
Proof.
  intros Ho. cbn [write ofstream_ostream]. unfold fs_write.
  destruct (failed s) eqn:Hf; [now split|]. rewrite Ho.
  destruct bs; now split.
Qed.

Lemma fs_close_contents s :
  contents (fs_close s) = contents s /\ is_open (fs_close s) = false.
Proof. unfold fs_close. destruct (is_open s); now split. Qed.

Lemma trailer_app a e : length e = 22%nat -> trailer (a ++ e) = e.
Proof.
  intros He. unfold trailer. rewrite length_app, He.
  replace (length a + 22 - 22)%nat with (length a) by lia.
  rewrite skipn_app, skipn_all, Nat.sub_diag. reflexivity.
Qed.

Lemma length_eocd_bytes e : length (eocd_bytes e) = 22%nat.
Proof. reflexivity. Qed.

Lemma eocd_entries e : field 10 2 (eocd_bytes e) = to_u16 (num_entries_total e).
Proof. read_field. Qed.

Lemma eocd_size e : field 12 4 (eocd_bytes e) = to_u32 (central_directory_size e).
Proof. read_field. Qed.

Lemma eocd_offset e : field 16 4 (eocd_bytes e) = to_u32 (central_directory_offset e).
Proof. read_field. Qed.

(** What [close] writes on an open stream: the central directory, then
    the end-of-directory record, whose size and offset fields hold the
    length of the directory and the position it was written at, reduced
    to 32 bits. *)
Lemma close_open st : good (fs_ st) ->
  exists st1 eocd,
    close st = Returned tt st1 /\
    contents (fs_ st1) = (contents (fs_ st) ++ central_dir_ st) ++ eocd /\
    length eocd = 22%nat /\
    trailer_entries (contents (fs_ st1)) = to_u16 (num_entries_ st) /\
    trailer_size (contents (fs_ st1)) = to_u32 (size (central_dir_ st)) /\
    trailer_offset (contents (fs_ st1)) = to_u32 (tellp (fs_ st)).
Proof.
  intros Hg. unfold close.
  set (e := {| signature := _ |}).
  destruct (good_write _ (central_dir_ st) Hg) as [G1 C1].
  destruct (good_write _ (eocd_bytes e) G1) as [G2 C2].
  eexists _, (eocd_bytes e). split; [reflexivity|].
  cbn [fs_]. destruct (fs_close_contents
    (write (write (fs_ st) (central_dir_ st)) (eocd_bytes e))) as [-> _].
  rewrite C2, C1. split; [reflexivity|]. split; [reflexivity|].
  unfold trailer_entries, trailer_size, trailer_offset.
  rewrite trailer_app by reflexivity.
  rewrite eocd_entries, eocd_size, eocd_offset. subst e.
  cbn [num_entries_total central_directory_size central_directory_offset].
  now rewrite !to_u32_idem.
Qed.

(** C5. [close] always returns, and a second [close] (also the one the
    destructor makes) returns as well and leaves the bytes of the file
    as the first one left them. *)
Theorem close_twice st :
  exists st1 st2,
    close st = Returned tt st1 /\
    close st1 = Returned tt st2 /\
    NpzFile_delete st1 = Returned tt st2 /\
    contents (fs_ st2) = contents (fs_ st1).
Proof.
  unfold NpzFile_delete.
  eexists _, _. split; [reflexivity|]. split; [reflexivity|].
  split; [reflexivity|].
  cbn [close fs_ central_dir_ num_entries_].
  match goal with
  | |- contents (fs_close (write (write (fs_close ?s) ?a) ?b)) = _ =>
    destruct (fs_close_contents s) as [Hc Ho];
    destruct (closed_write (fs_close s) a Ho) as [Ho1 Hc1];
    destruct (closed_write (write (fs_close s) a) b Ho1) as [Ho2 Hc2];
    destruct (fs_close_contents (write (write (fs_close s) a) b)) as [Hc3 _];
    rewrite Hc3, Hc2, Hc1; reflexivity
  end.
Qed.

(** ** Array headers *)

Lemma digits_decimal fuel : forall n acc,
  0 <= n < 10 ^ Z.of_nat fuel ->
  fold_left (fun v b => 10 * v + (b - 48)) (digits fuel n acc) 0
  = fold_left (fun v b => 10 * v + (b - 48)) acc n.
Proof.
  induction fuel; intros n acc Hn.
  - cbn [digits]. change (10 ^ Z.of_nat 0) with 1 in Hn.
    now replace n with 0 by lia.
  - cbn [digits]. rewrite Nat2Z.inj_succ, Z.pow_succ_r in Hn by lia.
    pose proof (Z.div_mod n 10 ltac:(lia)) as Hdm.
    pose proof (Z.mod_pos_bound n 10 ltac:(lia)) as Hmod.
    destruct (Z.eqb_spec (n / 10) 0) as [Hz|Hz].
    + cbn [fold_left]. f_equal. lia.
    + rewrite IHfuel.
      * cbn [fold_left]. f_equal. lia.
      * split; [apply Z.div_pos; lia|apply Z.div_lt_upper_bound; lia].
Qed.

(** [to_string] writes its argument in decimal, for every [size_t]. *)
Lemma to_string_decimal n : 0 <= n < 2 ^ 64 -> decimal (to_string n) = n.
Proof.
  intros Hn. unfold decimal, to_string. rewrite (digits_decimal 20 n []).
  - reflexivity.
  - change (10 ^ Z.of_nat 20) with 100000000000000000000. lia.
Qed.

Lemma length_digits fuel : forall n acc,
  (length (digits fuel n acc) <= fuel + length acc)%nat.
Proof.
  induction fuel; intros n acc; cbn [digits]; [lia|].
  destruct (n / 10 =? 0); [cbn [length]; lia|].
  specialize (IHfuel (n / 10) (48 + n mod 10 :: acc)). cbn [length] in IHfuel.
  lia.
Qed.

Lemma size_to_string n : size (to_string n) <= 20.
Proof.
  unfold size, to_string. pose proof (length_digits 20 n []).
  cbn [length] in H. lia.
Qed.

Lemma size_join_to_string shape :
  size (join (str ",") (map to_string shape)) <= 21 * Z.of_nat (length shape).
Proof.
  induction shape as [|d [|d' rest] IH].
  - cbn. lia.
  - cbn [map join length]. pose proof (size_to_string d). lia.
  - change (map to_string (d :: d' :: rest))
      with (to_string d :: map to_string (d' :: rest)).
    change (join (str ",") (to_string d :: map to_string (d' :: rest)))
      with (to_string d ++ str "," ++ join (str ",") (map to_string (d' :: rest))).
    rewrite !size_app. pose proof (size_to_string d).
    change (size (str ",")) with 1. cbn [length] in *. lia.
Qed.

Lemma size_shape_text shape :
  size (shape_text shape) <= 21 * Z.of_nat (length shape) + 1.
Proof.
  pose proof (size_join_to_string shape).
  destruct shape as [|d [|d' rest]]; cbn [shape_text]; try lia.
  rewrite size_app. pose proof (size_to_string d).
  change (size (str ",")) with 1. cbn [length]. lia.
Qed.

Lemma size_numpy_descr t : size (numpy_descr t) <= 4.
Proof. destruct t; vm_compute; discriminate. Qed.

(** The loop of lines 279-282 and the comma of line 283 write the shape
    as the spec describes it. *)
Lemma loop_appends rest : forall header,
  fold_left (fun header d => (header ++ str ",") ++ to_string d) rest header
  = header ++ concat (map (fun d => str "," ++ to_string d) rest).
Proof.
  induction rest as [|d rest IH]; intros header; cbn [fold_left map concat].
  - now rewrite app_nil_r.
  - rewrite IH. now rewrite <- !app_assoc.
Qed.

Lemma joined_tail d rest :
  to_string d ++ concat (map (fun d => str "," ++ to_string d) rest)
  = join (str ",") (map to_string (d :: rest)).
Proof.
  revert d. induction rest as [|d' rest IH]; intros d.
  - cbn [map concat join]. apply app_nil_r.
  - change (map to_string (d :: d' :: rest))
      with (to_string d :: map to_string (d' :: rest)).
    change (join (str ",") (to_string d :: map to_string (d' :: rest)))
      with (to_string d ++ str "," ++ join (str ",") (map to_string (d' :: rest))).
    rewrite <- IH. cbn [map concat]. now rewrite <- !app_assoc.
Qed.

Lemma pad_count_range n : 1 <= pad_count n <= 64.
Proof. unfold pad_count. pose proof (Z.mod_pos_bound (n + 1) 64). lia. Qed.

Lemma padded_aligned n : (n + pad_count n + 1) mod 64 = 0.
Proof.
  unfold pad_count. pose proof (Z.div_mod (n + 1) 64 ltac:(lia)).
  replace (n + (64 - (n + 1) mod 64) + 1) with (((n + 1) / 64 + 1) * 64) by lia.
  apply Z_mod_mult.
Qed.

Lemma size_repeat x k : 0 <= k -> size (repeat x (Z.to_nat k)) = k.
Proof. intros H. unfold size. rewrite repeat_length. lia. Qed.

Lemma npy_header_bytes_split v tail :
  npy_header_bytes v ++ tail = npy_magic ++ le_bytes 2 v ++ tail.
Proof. reflexivity. Qed.

Lemma replace2_length_field v p tail :
  replace2 (npy_magic ++ le_bytes 2 v ++ tail) 8 p = npy_magic ++ p ++ tail.
Proof. reflexivity. Qed.

(** [create_npy_header] in terms of the dictionary. *)
Lemma create_npy_header_eq type_descr d0 rest :
  create_npy_header type_descr (d0 :: rest)
  = let header := npy_header_bytes 54 ++ dictionary type_descr (d0 :: rest) in
    let padded :=
      (header ++ repeat 32 (Z.to_nat (pad_count (size header)))) ++ [10] in
    if size padded <=? 0xffff then
      let h := if size padded >? 64
               then replace2 padded 8 (le_bytes 2 (to_u16 (size padded - 10)))
               else padded in
      if size h mod 64 =? 0 then Some h else None
    else None.
Proof.
  unfold create_npy_header. cbv zeta. rewrite loop_appends.
  match goal with
  | |- context [?b ++ str ")}"] => set (body := b ++ str ")}")
  end.
  assert (Hbody : body = npy_header_bytes 54 ++ dictionary type_descr (d0 :: rest)).
  { subst body. unfold dictionary. destruct rest as [|d1 rest'].
    - cbn [length Nat.eqb map concat shape_text]. rewrite app_nil_r.
      rewrite <- !app_assoc. reflexivity.
    - cbn [length Nat.eqb]. unfold shape_text. rewrite <- joined_tail.
      rewrite <- !app_assoc. reflexivity. }
  rewrite Hbody. reflexivity.
Qed.

(** C8. For a non-empty shape and a supported element type, whenever the
    padded header fits the 16-bit length field (the function asserts it;
    every shape of at most 3000 dimensions fits), [create_npy_header]
    returns a header whose length is a multiple of 64, that ends with a
    space followed by one newline, and that is the magic string, the
    header length, the dictionary with the shape written as the spec says
    (a lone dimension followed by a comma, several dimensions separated by
    commas), spaces, and the newline.  A header that does not fit is not
    built. *)
Theorem npy_header_layout t shape :
  shape <> [] ->
  let descr := numpy_descr t in
  let n := unpadded_size descr shape in
  (n + pad_count n + 1 <= 0xffff ->
   exists header,
     create_npy_header descr shape = Some header /\
     size header = n + pad_count n + 1 /\
     size header mod 64 = 0 /\
     (exists body, header = body ++ [32; 10]) /\
     header = npy_magic ++ le_bytes 2 (size header - 10)
              ++ dictionary descr shape
              ++ repeat 32 (Z.to_nat (pad_count n)) ++ [10]) /\
  (0xffff < n + pad_count n + 1 -> create_npy_header descr shape = None) /\
  ((length shape <= 3000)%nat -> n + pad_count n + 1 <= 0xffff).
Proof.
  intros Hshape descr n.
  destruct shape as [|d0 rest]; [contradiction|].
  pose proof (pad_count_range n) as Hpad.
  pose proof (padded_aligned n) as Hal.
  set (header := npy_header_bytes 54 ++ dictionary descr (d0 :: rest)).
  assert (Hn : size header = n)
    by (subst header n; unfold unpadded_size; now rewrite size_app).
  set (padded := (header ++ repeat 32 (Z.to_nat (pad_count (size header)))) ++ [10]).
  assert (Hsize : size padded = n + pad_count n + 1).
  { subst padded. rewrite !size_app, Hn, size_repeat by lia. reflexivity. }
  assert (Hpos : 0 <= n) by (rewrite <- Hn; apply size_nonneg).
  assert (Heq : create_npy_header descr (d0 :: rest)
    = if size padded <=? 0xffff then
        let h := if size padded >? 64
                 then replace2 padded 8 (le_bytes 2 (to_u16 (size padded - 10)))
                 else padded in
        if size h mod 64 =? 0 then Some h else None
      else None) by apply create_npy_header_eq.
  assert (Hform : padded = npy_magic ++ le_bytes 2 54 ++ dictionary descr (d0 :: rest)
                    ++ repeat 32 (Z.to_nat (pad_count n)) ++ [10]).
  { subst padded. rewrite Hn. subst header.
    rewrite <- !app_assoc. apply npy_header_bytes_split. }
  split; [|split].
  - intros Hfit. rewrite Heq.
    destruct (Z.leb_spec (size padded) 0xffff) as [_|]; [|lia].
    cbv zeta.
    set (final := npy_magic ++ le_bytes 2 (size padded - 10)
                  ++ dictionary descr (d0 :: rest)
                  ++ repeat 32 (Z.to_nat (pad_count n)) ++ [10]).
    assert (Hfinal : (if size padded >? 64
                      then replace2 padded 8 (le_bytes 2 (to_u16 (size padded - 10)))
                      else padded) = final).
    { destruct (Z.gtb_spec (size padded) 64) as [Hgt|Hle].
      - rewrite to_u16_small by lia. rewrite Hform at 1.
        apply replace2_length_field.
      - assert (size padded = 64).
        { rewrite Hsize in *. 
          pose proof (Z.div_mod (n + pad_count n + 1) 64 ltac:(lia)) as Hd.
          rewrite Hal in Hd.
          assert (0 < (n + pad_count n + 1) / 64) by lia.
          assert ((n + pad_count n + 1) / 64 < 2) by lia. lia. }
        subst final. rewrite H. exact Hform. }
    rewrite Hfinal.
    assert (Hfs : size final = size padded).
    { subst final. rewrite Hform. rewrite !size_app.
      unfold size. now rewrite !length_le_bytes. }
    rewrite Hfs, Hsize, Hal. exists final.
    split; [reflexivity|]. split; [now rewrite Hfs|].
    split; [now rewrite Hfs, Hsize|]. split.
    + destruct (Z.to_nat (pad_count n)) as [|k] eqn:Hk; [lia|].
      exists (npy_magic ++ le_bytes 2 (size padded - 10)
              ++ dictionary descr (d0 :: rest) ++ repeat 32 k).
      subst final.
      change (repeat 32 (S k)) with (32 :: repeat 32 k).
      rewrite repeat_cons. rewrite <- !app_assoc. reflexivity.
    + subst final. now rewrite Hfs.
  - intros Hbig. rewrite Heq.
    destruct (Z.leb_spec (size padded) 0xffff); [lia|reflexivity].
  - intros Hlen.
    pose proof (size_shape_text (d0 :: rest)) as Hst.
    pose proof (size_numpy_descr t) as Hd.
    assert (n <= 64 + 21 * Z.of_nat (length (d0 :: rest)) + 1).
    { subst n. unfold unpadded_size, dictionary. rewrite !size_app.
      change (size (str "{'descr': '")) with 11.
      change (size (str "', 'fortran_order': False, 'shape': (")) with 37.
      change (size (str ")}")) with 2. change sizeof_NpyHeader with 10.
      fold descr in Hd. lia. }
    lia.
Qed.

(** ** Parsing the central directory *)

Lemma field_app_l off n a b : (off + n <= length a)%nat ->
  field off n (a ++ b) = field off n a.
Proof.
  intros H. unfold field. rewrite skipn_app.
  replace (off - length a)%nat with O by lia. rewrite skipn_O, firstn_app.
  rewrite length_skipn. replace (n - (length a - off))%nat with O by lia.
  now rewrite firstn_O, app_nil_r.
Qed.

Lemma record_length_min bs : (46 <= record_length bs)%nat.
Proof. unfold record_length. lia. Qed.

Lemma record_prefix a b : record_ok a = true ->
  record_ok (a ++ b) = true /\
  record_length (a ++ b) = record_length a /\
  record_at (a ++ b) = record_at a /\
  skipn (record_length a) (a ++ b) = skipn (record_length a) a ++ b.
Proof.
  unfold record_ok. intros H. apply andb_prop in H as [Hsig Hlen].
  apply Nat.leb_le in Hlen. pose proof (record_length_min a) as Hmin.
  assert (Hl : record_length (a ++ b) = record_length a).
  { unfold record_length. now rewrite !field_app_l by lia. }
  rewrite Hl. repeat split.
  - rewrite field_app_l by lia. rewrite Hsig. cbn [andb].
    apply Nat.leb_le. rewrite length_app. lia.
  - unfold record_at. rewrite !field_app_l by lia. f_equal.
    rewrite skipn_app. replace (46 - length a)%nat with O by lia.
    rewrite skipn_O, firstn_app, length_skipn.
    unfold record_length in Hlen.
    replace (Z.to_nat (field 28 2 a) - (length a - 46))%nat with O by lia.
    now rewrite firstn_O, app_nil_r.
  - rewrite skipn_app. replace (record_length a - length a)%nat with O by lia.
    reflexivity.
Qed.

Lemma parse_records_fuel f : forall bs rs,
  parse_records f bs = Some rs ->
  forall f', (f <= f')%nat -> parse_records f' bs = Some rs.
Proof.
  induction f; intros [|x bs] rs H f' Hf; cbn [parse_records] in *;
    try (destruct f'; assumption); try discriminate.
  destruct f' as [|f']; [lia|]. cbn [parse_records].
  destruct (record_ok (x :: bs)); [|discriminate].
  destruct (parse_records f _) as [rs'|] eqn:Hrec; [|discriminate].
  rewrite (IHf _ _ Hrec f') by lia. assumption.
Qed.

Lemma parse_records_app fa : forall a ra b rb fb,
  parse_records fa a = Some ra ->
  parse_records fb b = Some rb ->
  parse_records (fa + fb) (a ++ b) = Some (ra ++ rb).
Proof.
  induction fa; intros [|x a] ra b rb fb Ha Hb; cbn [parse_records] in Ha;
    try discriminate.
  - injection Ha as <-. cbn [app]. apply (parse_records_fuel _ _ _ Hb). lia.
  - injection Ha as <-. cbn [app]. apply (parse_records_fuel _ _ _ Hb). lia.
  - destruct (record_ok (x :: a)) eqn:Hok; [|discriminate].
    destruct (parse_records fa _) as [rs'|] eqn:Hrec; [|discriminate].
    injection Ha as <-.
    destruct (record_prefix _ b Hok) as (Hok' & Hl & Hat & Hskip).
    change ((x :: a) ++ b) with (x :: a ++ b) in *.
    cbn [parse_records Nat.add]. rewrite Hok', Hl, Hat, Hskip.
    rewrite (IHfa _ _ _ _ _ Hrec Hb). reflexivity.
Qed.

Lemma parse_central_dir_app a ra b rb :
  parse_central_dir a = Some ra ->
  parse_central_dir b = Some rb ->
  parse_central_dir (a ++ b) = Some (ra ++ rb).
Proof.
  unfold parse_central_dir. intros Ha Hb. rewrite length_app.
  now apply parse_records_app.
Qed.

Lemma parse_records_step f x bs :
  parse_records (S f) (x :: bs)
  = if record_ok (x :: bs)
    then option_map (cons (record_at (x :: bs)))
           (parse_records f (skipn (record_length (x :: bs)) (x :: bs)))
    else None.
Proof. reflexivity. Qed.

Lemma parse_records_nil f : parse_records f [] = Some [].
Proof. now destruct f. Qed.

Section CentralEntry.
Variables (h : ZipLocalFileHeader) (off : Z) (name : bytes).

Lemma central_entry_f0 :
  field 0 4 (central_entry h off name)
  = to_u32 ZIP_CENTRAL_DIRECTORY_FILE_HEADER_SIG.
Proof. read_field. Qed.

Lemma central_entry_f4 :
  field 4 2 (central_entry h off name) = to_u16 VERSION_MADE_BY.
Proof. read_field. Qed.

Lemma central_entry_f10 :
  field 10 2 (central_entry h off name) = to_u16 (compression_method h).
Proof. read_field. Qed.

Lemma central_entry_f12 :
  field 12 2 (central_entry h off name) = to_u16 (last_mod_file_time h).
Proof. read_field. Qed.

Lemma central_entry_f14 :
  field 14 2 (central_entry h off name) = to_u16 (last_mod_file_date h).
Proof. read_field. Qed.

Lemma central_entry_f20 :
  field 20 4 (central_entry h off name) = to_u32 (compressed_size h).
Proof. read_field. Qed.

Lemma central_entry_f24 :
  field 24 4 (central_entry h off name) = to_u32 (uncompressed_size h).
Proof. read_field. Qed.

Lemma central_entry_f28 :
  field 28 2 (central_entry h off name) = to_u16 (filename_length h).
Proof. read_field. Qed.

Lemma central_entry_f30 :
  field 30 2 (central_entry h off name) = to_u16 (extra_field_length h).
Proof. read_field. Qed.

Lemma central_entry_f32 :
  field 32 2 (central_entry h off name) = to_u16 0.
Proof. read_field. Qed.

Lemma central_entry_f42 :
  field 42 4 (central_entry h off name) = to_u32 off.
Proof. read_field. Qed.

Lemma central_entry_name : skipn 46 (central_entry h off name) = name.
Proof. reflexivity. Qed.

Lemma central_entry_sig_value :
  to_u32 ZIP_CENTRAL_DIRECTORY_FILE_HEADER_SIG
  = ZIP_CENTRAL_DIRECTORY_FILE_HEADER_SIG.
Proof. vm_compute. reflexivity. Qed.

Lemma version_value : to_u16 VERSION_MADE_BY = VERSION_MADE_BY.
Proof. vm_compute. reflexivity. Qed.

Lemma to_u16_0 : to_u16 0 = 0.
Proof. vm_compute. reflexivity. Qed.

Hypothesis Hfn : filename_length h = size name.
Hypothesis Hname : size name <= 0xffff.
Hypothesis Hex : extra_field_length h = 0.

Lemma central_entry_record_length :
  record_length (central_entry h off name) = length (central_entry h off name).
Proof.
  pose proof (size_nonneg name) as Hpos.
  unfold record_length.
  rewrite central_entry_f28, central_entry_f30, central_entry_f32.
  rewrite Hfn, Hex, to_u16_0, (to_u16_small (size name)) by lia.
  rewrite length_central_entry. unfold size. rewrite Nat2Z.id.
  change (Z.to_nat 0) with O. now rewrite !Nat.add_0_r.
Qed.

Lemma central_entry_record_at :
  record_at (central_entry h off name) = record_of_entry h off name.
Proof.
  pose proof (size_nonneg name) as Hpos.
  unfold record_at, record_of_entry.
  rewrite central_entry_f4, central_entry_f10, central_entry_f12,
    central_entry_f14, central_entry_f20, central_entry_f24,
    central_entry_f28, central_entry_f42, central_entry_name, version_value.
  rewrite Hfn, (to_u16_small (size name)) by lia.
  unfold size. rewrite Nat2Z.id, firstn_all.
  reflexivity.
Qed.

Lemma parse_central_entry :
  parse_central_dir (central_entry h off name)
  = Some [record_of_entry h off name].
Proof.
  unfold parse_central_dir. rewrite length_central_entry.
  pose proof central_entry_record_length as Hlen.
  pose proof central_entry_record_at as Hat.
  pose proof central_entry_f0 as F0. rewrite central_entry_sig_value in F0.
  pose proof (length_central_entry h off name) as Hl.
  remember (central_entry h off name) as e eqn:He. clear He.
  destruct e as [|x e]; [discriminate|].
  change (46 + length name)%nat with (S (45 + length name)).
  rewrite parse_records_step. unfold record_ok.
  rewrite F0, Z.eqb_refl, Hlen, Nat.leb_refl, Hat.
  rewrite skipn_all, parse_records_nil.
  reflexivity.
Qed.

End CentralEntry.

Section Addition.
Context {zlib : Zlib}.

(** What a call that returns has done. *)
Lemma add_file_from_buffers_returned now name buf0 buf1 ts c st r st' :
  add_file_from_buffers now name buf0 buf1 ts c st = Returned r st' ->
  size name <= 0xffff /\
  exists u h payload,
    gmtime (if ts =? 0 then now else ts) = Some u /\
    last_mod_file_time h = dos_time u /\
    last_mod_file_date h = dos_date u /\
    compression_method h = method_code c /\
    uncompressed_size h = to_u32 (size buf0 + size_opt buf1) /\
    filename_length h = size name /\
    extra_field_length h = 0 /\
    r = compressed_size h /\
    match c with
    | STORED =>
      payload = buf0 ++ match buf1 with Some b1 => b1 | None => [] end /\
      compressed_size h = to_u32 (size buf0 + size_opt buf1)
    | DEFLATE =>
      exists strm,
      deflate_payload buf0 buf1 (to_u32 (size buf0 + size_opt buf1))
      = Deflated strm payload /\
      compressed_size h = to_u32 (total_out strm)
    end /\
    central_dir_ st' =
      central_dir_ st ++ central_entry h (to_u32 (tellp (fs_ st))) name /\
    num_entries_ st' = to_u16 (num_entries_ st + 1) /\
    filename_ st' = filename_ st /\
    (good (fs_ st) ->
     good (fs_ st') /\
     contents (fs_ st') = contents (fs_ st) ++ local_entry h name payload).
Proof.
  unfold add_file_from_buffers.
  destruct (Z.gtb_spec (size name) 0xffff) as [|Hname]; [discriminate|].
  rewrite (firstn_name _ Hname).
  destruct (gmtime _) as [u|] eqn:Hu; [|discriminate].
  pose proof (size_nonneg name) as Hpos.
  assert (Hlen : to_u16 (to_u32 (size name)) = size name)
    by (rewrite (to_u32_small (size name)) by lia; apply to_u16_small; lia).
  destruct c.
  - (* STORED *)
    set (h := fill_local_header _ _ _ _ _ _).
    intros Heq.
    pose proof (f_equal (fun o => match o with Returned x _ => x | _ => 0 end) Heq) as Hr.
    pose proof (f_equal (fun o => match o with Returned _ s => s | _ => st end) Heq) as Hs.
    cbv beta iota in Hr, Hs. subst r st'. clear Heq.
    split; [assumption|].
    exists u, h, (buf0 ++ match buf1 with Some b1 => b1 | None => [] end).
    cbn [central_dir_ num_entries_ filename_ fs_].
    do 8 (split; [first [reflexivity | assumption]|]).
    split; [split; reflexivity|].
    split.
    { unfold central_entry, write4, write2. cbn [write ostringstream_ostream].
      now rewrite <- !app_assoc. }
    do 2 (split; [reflexivity|]).
    intros Hg. unfold write4.
    destruct (good_write _ (le_bytes 4 ZIP_LOCAL_FILE_HEADER_SIG) Hg) as [G1 C1].
    destruct (good_write _ (local_header_bytes h) G1) as [G2 C2].
    destruct (good_write _ name G2) as [G3 C3].
    destruct (good_write _ buf0 G3) as [G4 C4].
    unfold local_entry. destruct buf1 as [b1|].
    + destruct (good_write _ b1 G4) as [G5 C5]. split; [exact G5|].
      rewrite C5, C4, C3, C2, C1. now rewrite <- !app_assoc.
    + split; [exact G4|].
      rewrite C4, C3, C2, C1, app_nil_r. now rewrite <- !app_assoc.
  - (* DEFLATE *)
    destruct (deflate_payload _ _ _) as [| |strm compressed] eqn:Hd;
      try discriminate.
    set (h := fill_local_header _ _ _ _ _ _).
    intros Heq.
    pose proof (f_equal (fun o => match o with Returned x _ => x | _ => 0 end) Heq) as Hr.
    pose proof (f_equal (fun o => match o with Returned _ s => s | _ => st end) Heq) as Hs.
    cbv beta iota in Hr, Hs. subst r st'. clear Heq.
    split; [assumption|].
    exists u, h, compressed.
    cbn [central_dir_ num_entries_ filename_ fs_].
    do 8 (split; [first [reflexivity | assumption]|]).
    split; [exists strm; split; reflexivity|].
    split.
    { unfold central_entry, write4, write2. cbn [write ostringstream_ostream].
      now rewrite <- !app_assoc. }
    do 2 (split; [reflexivity|]).
    intros Hg. unfold write4.
    destruct (good_write _ (le_bytes 4 ZIP_LOCAL_FILE_HEADER_SIG) Hg) as [G1 C1].
    destruct (good_write _ (local_header_bytes h) G1) as [G2 C2].
    destruct (good_write _ name G2) as [G3 C3].
    destruct (good_write _ compressed G3) as [G4 C4].
    unfold local_entry. split; [exact G4|].
    rewrite C4, C3, C2, C1. now rewrite <- !app_assoc.
Qed.

(** ** Sequences of additions *)

Lemma to_u16_add_l a b : to_u16 (to_u16 a + b) = to_u16 (a + b).
Proof. unfold to_u16. now rewrite Zplus_mod_idemp_l. Qed.

Lemma add_call_step c st recs0 r st1 :
  good (fs_ st) ->
  parse_central_dir (central_dir_ st) = Some recs0 ->
  add_call c st = Returned r st1 ->
  good (fs_ st1) /\
  num_entries_ st1 = to_u16 (num_entries_ st + 1) /\
  exists h payload,
    contents (fs_ st1) = contents (fs_ st) ++ local_entry h (c_name c) payload /\
    parse_central_dir (central_dir_ st1)
    = Some (recs0 ++ [record_of_entry h (to_u32 (tellp (fs_ st))) (c_name c)]).
Proof.
  intros Hg Hp H. unfold add_call in H.
  apply add_file_from_buffers_returned in H
    as (Hname & u & h & payload & _ & _ & _ & _ & _ & Hfn & Hex & _ & _
        & Hcd & Hn & _ & Hfs).
  destruct (Hfs Hg) as [Hg1 Hc]. split; [assumption|]. split; [assumption|].
  exists h, payload. split; [assumption|]. rewrite Hcd.
  apply parse_central_dir_app; [assumption|].
  now apply parse_central_entry.
Qed.

Lemma add_all_cons c cs st r st1 :
  add_call c st = Returned r st1 ->
  add_all (c :: cs) st = add_all cs st1.
Proof. intros H. cbn [add_all]. now rewrite H. Qed.

Lemma add_all_cons_inv c cs st st' :
  add_all (c :: cs) st = Returned tt st' ->
  exists r st1, add_call c st = Returned r st1 /\ add_all cs st1 = Returned tt st'.
Proof.
  cbn [add_all]. destruct (add_call c st) as [r st1| |]; try discriminate.
  intros H. now exists r, st1.
Qed.

(** The invariant of a run of additions that all return: the stream stays
    open and only grows, the counter counts modulo 2^16, and the central
    directory parses into one record per call, in the order of the calls,
    each holding the name of its call and the 32-bit reduction of the
    position at which its local header was put. *)
Lemma add_all_records cs : forall st0 recs0 st,
  good (fs_ st0) ->
  0 <= num_entries_ st0 < 65536 ->
  parse_central_dir (central_dir_ st0) = Some recs0 ->
  add_all cs st0 = Returned tt st ->
  good (fs_ st) /\
  (exists more, contents (fs_ st) = contents (fs_ st0) ++ more) /\
  num_entries_ st = to_u16 (num_entries_ st0 + Z.of_nat (length cs)) /\
  exists recs,
    parse_central_dir (central_dir_ st) = Some (recs0 ++ recs) /\
    length recs = length cs /\
    forall i c r,
      nth_error cs i = Some c -> nth_error recs i = Some r ->
      exists st_i,
        add_all (firstn i cs) st0 = Returned tt st_i /\
        good (fs_ st_i) /\
        cd_offset r = to_u32 (tellp (fs_ st_i)) /\
        cd_name r = c_name c /\
        field (length (contents (fs_ st_i))) 4 (contents (fs_ st))
        = ZIP_LOCAL_FILE_HEADER_SIG.
Proof.
  induction cs as [|c cs IH]; intros st0 recs0 st Hg Hn Hp H.
  - cbn [add_all] in H. injection H as <-.
    split; [assumption|]. split; [exists []; now rewrite app_nil_r|].
    split.
    { cbn [length]. rewrite Z.add_0_r. symmetry. now apply to_u16_small. }
    exists []. rewrite app_nil_r. split; [assumption|]. split; [reflexivity|].
    intros [|i] c r Hc; discriminate.
  - apply add_all_cons_inv in H as (r1 & st1 & Hc & Hrest).
    destruct (add_call_step _ _ _ _ _ Hg Hp Hc)
      as (Hg1 & Hn1 & h & payload & Hc1 & Hp1).
    assert (Hr1 : 0 <= num_entries_ st1 < 65536)
      by (rewrite Hn1; apply Z.mod_pos_bound; lia).
    destruct (IH _ _ _ Hg1 Hr1 Hp1 Hrest)
      as (Hgs & [more Hmore] & Hcount & recs & Hrecs & Hlen & Hall).
    split; [assumption|]. split.
    { exists (local_entry h (c_name c) payload ++ more).
      now rewrite Hmore, Hc1, app_assoc. }
    split.
    { rewrite Hcount, Hn1, to_u16_add_l. f_equal. cbn [length]. lia. }
    exists (record_of_entry h (to_u32 (tellp (fs_ st0))) (c_name c) :: recs).
    split; [now rewrite Hrecs, <- app_assoc|].
    split; [cbn [length]; now rewrite Hlen|].
    intros [|i] c' r' Hci Hri.
    + cbn [nth_error] in Hci, Hri. injection Hci as <-. injection Hri as <-.
      exists st0. split; [reflexivity|]. split; [assumption|].
      split; [apply to_u32_idem|]. split; [reflexivity|].
      rewrite Hmore, Hc1, <- app_assoc.
      rewrite <- (Nat.add_0_r (length (contents (fs_ st0)))), field_app_r.
      rewrite field_app_l by (rewrite length_local_entry; lia).
      apply local_entry_signature.
    + cbn [nth_error] in Hci, Hri.
      destruct (Hall _ _ _ Hci Hri) as (st_i & Hrun & Hrest_i).
      exists st_i. split; [|assumption].
      cbn [firstn]. now rewrite (add_all_cons _ _ _ _ _ Hc).
Qed.

Lemma good_fresh filename : good (fs_ (fresh filename)).
Proof. split; reflexivity. Qed.

Lemma parse_fresh filename :
  parse_central_dir (central_dir_ (fresh filename)) = Some [].
Proof. reflexivity. Qed.



(** A stored entry is always added when the name fits and the calendar
    can express the time. *)
Lemma add_stored_returns now name buf0 buf1 ts st u :
  size name <= 0xffff ->
  gmtime (if ts =? 0 then now else ts) = Some u ->
  exists st',
    add_file_from_buffers now name buf0 buf1 ts STORED st
    = Returned (to_u32 (size buf0 + size_opt buf1)) st'.
Proof.
  intros Hname Hu. unfold add_file_from_buffers.
  destruct (Z.gtb_spec (size name) 0xffff); [lia|].
  rewrite Hu. eexists. reflexivity.
Qed.

Lemma add_deflate_returns now name buf0 buf1 ts st u strm compressed :
  size name <= 0xffff ->
  gmtime (if ts =? 0 then now else ts) = Some u ->
  deflate_payload buf0 buf1 (to_u32 (size buf0 + size_opt buf1))
  = Deflated strm compressed ->
  exists st',
    add_file_from_buffers now name buf0 buf1 ts DEFLATE st
    = Returned (to_u32 (total_out strm)) st'.
Proof.
  intros Hname Hu Hd. unfold add_file_from_buffers.
  destruct (Z.gtb_spec (size name) 0xffff); [lia|].
  rewrite Hu, Hd. eexists. reflexivity.
Qed.

(** ** The deflate session *)

Lemma fed_all source : size source < 2 ^ 32 -> fed source = source.
Proof.
  intros H. pose proof (size_nonneg source). unfold fed.
  rewrite to_u32_small by lia. unfold size. rewrite Nat2Z.id. apply firstn_all.
Qed.

Lemma compress_chunk_some strm buffer source dest dest_len finish strm' buffer' :
  compress_chunk strm buffer source dest dest_len finish = Some (strm', buffer') ->
  exists ret,
    history strm'
    = history strm ++ [(fed source, if finish then Z_FINISH else Z_NO_FLUSH, ret)] /\
    if finish then ret = Z_STREAM_END else ret = Z_OK \/ ret = Z_BUF_ERROR.
Proof.
  unfold compress_chunk, deflate, fed.
  cbn [internal next_in avail_out history].
  destruct (deflate_engine _ _ _ _) as [[[ret c] p] s'].
  exists ret. destruct finish.
  - destruct (Z.eqb_spec ret Z_STREAM_END); [|discriminate].
    injection H as <- _. cbn [history]. now split.
  - destruct (Z.eqb_spec ret Z_OK); cbn [orb] in H.
    + injection H as <- _. cbn [history]. split; [reflexivity|now left].
    + destruct (Z.eqb_spec ret Z_BUF_ERROR); [|discriminate].
      injection H as <- _. cbn [history]. split; [reflexivity|now right].
Qed.

(** What the deflate branch has done when it ends without a failed
    assertion. *)
Lemma deflate_payload_deflated buf0 buf1 total_size strm compressed :
  deflate_payload buf0 buf1 total_size = Deflated strm compressed ->
  total_in strm = total_size /\
  match buf1 with
  | None => history strm = [(fed buf0, Z_FINISH, Z_STREAM_END)]
  | Some b1 =>
    exists ret, (ret = Z_OK \/ ret = Z_BUF_ERROR) /\
    history strm = [(fed buf0, Z_NO_FLUSH, ret); (fed b1, Z_FINISH, Z_STREAM_END)]
  end.
Proof.
  unfold deflate_payload.
  destruct deflateInit2 as [s0|]; [|discriminate].
  destruct (compress_chunk _ _ buf0 _ _ _) as [[strm1 c1]|] eqn:H1;
    [|discriminate].
  apply compress_chunk_some in H1 as (ret1 & Hh1 & Hr1). cbn [history app] in Hh1.
  destruct (avail_in strm1 =? 0); [|discriminate].
  destruct buf1 as [b1|].
  - destruct (compress_chunk _ _ b1 _ _ _) as [[strm2 c2]|] eqn:H2;
      [|discriminate].
    apply compress_chunk_some in H2 as (ret2 & Hh2 & Hr2).
    destruct (Z.eqb_spec (total_in strm2) total_size); [|discriminate].
    intros [= <- _]. split; [assumption|].
    exists ret1. split; [assumption|]. rewrite Hh2, Hh1, Hr2. reflexivity.
  - destruct (Z.eqb_spec (total_in strm1) total_size); [|discriminate].
    intros [= <- _]. split; [assumption|]. now rewrite Hh1, Hr1.
Qed.

(** C9, as amended.  When an entry is added with the deflate method and
    the call returns, the encoder was called once per fragment, in order:
    the first fragment without termination when a second one follows,
    the last fragment with termination, which returned the end-of-stream
    code; and the counter of consumed bytes at the end is the total length
    of the fragments reduced modulo 2^32.  When that total is below 2^32
    the counter is the total and every fragment was handed over whole. *)
Theorem deflate_session now name buf0 buf1 ts st r st' :
  add_file_from_buffers now name buf0 buf1 ts DEFLATE st = Returned r st' ->
  exists strm compressed,
    deflate_payload buf0 buf1 (to_u32 (size buf0 + size_opt buf1))
    = Deflated strm compressed /\
    match buf1 with
    | None => history strm = [(fed buf0, Z_FINISH, Z_STREAM_END)]
    | Some b1 =>
      exists ret, (ret = Z_OK \/ ret = Z_BUF_ERROR) /\
      history strm
      = [(fed buf0, Z_NO_FLUSH, ret); (fed b1, Z_FINISH, Z_STREAM_END)]
    end /\
    total_in strm = (size buf0 + size_opt buf1) mod 2 ^ 32 /\
    (size buf0 + size_opt buf1 < 2 ^ 32 ->
     total_in strm = size buf0 + size_opt buf1 /\
     fed buf0 = buf0 /\
     match buf1 with Some b1 => fed b1 = b1 | None => True end).
Proof.
  intros H.
  apply add_file_from_buffers_returned in H
    as (_ & u & h & payload & _ & _ & _ & _ & _ & _ & _ & _ & (strm & Hd & _) & _).
  exists strm, payload. split; [assumption|].
  destruct (deflate_payload_deflated _ _ _ _ _ Hd) as [Hin Hh].
  split; [assumption|]. split; [assumption|].
  intros Hlt. pose proof (size_nonneg buf0).
  assert (0 <= size_opt buf1) by (destruct buf1; [apply size_nonneg|cbn; lia]).
  split; [rewrite Hin; apply to_u32_small; lia|].
  split; [apply fed_all; lia|].
  destruct buf1 as [b1|]; [|exact I].
  apply fed_all. cbn [size_opt] in *. lia.
Qed.


Lemma payload_position h name payload rest :
  firstn (length payload)
    (skipn (30 + length name) (local_entry h name payload ++ rest))
  = payload.
Proof.
  unfold local_entry.
  replace ((le_bytes 4 ZIP_LOCAL_FILE_HEADER_SIG ++
            local_header_bytes h ++ name ++ payload) ++ rest)
    with ((le_bytes 4 ZIP_LOCAL_FILE_HEADER_SIG ++ local_header_bytes h ++ name)
          ++ payload ++ rest) by (now rewrite <- !app_assoc).
  rewrite skipn_app, skipn_all2, app_nil_l
    by (rewrite !length_app, length_local_header_bytes; cbn [length le_bytes]; lia).
  replace (30 + length name
           - length (le_bytes 4 ZIP_LOCAL_FILE_HEADER_SIG
                     ++ local_header_bytes h ++ name))%nat with O
    by (rewrite !length_app, length_local_header_bytes; cbn [length le_bytes]; lia).
  rewrite skipn_O, firstn_app, firstn_all, Nat.sub_diag, firstn_O.
  apply app_nil_r.
Qed.


(** C1. On a freshly opened archive, adding "bubble.txt" with the 15
    bytes "Words are loud\n" (no timestamp, so the clock is read) and
    closing leaves a file of exactly 133 bytes in which these 15 bytes
    stand at offset 40; the archive counts one entry. *)
Theorem simple_zip now u :
  gmtime now = Some u ->
  exists st st1,
    add_file now (str "bubble.txt") (str "Words are loud" ++ [10]) 0
      (fresh (str "ziptest.zip")) = Returned tt st /\
    close st = Returned tt st1 /\
    num_files st1 = 1 /\
    size (contents (fs_ st1)) = 133 /\
    firstn 15 (skipn 40 (contents (fs_ st1))) = str "Words are loud" ++ [10].
Proof.
  intros Hu. unfold add_file.
  set (name := str "bubble.txt"). set (data := str "Words are loud" ++ [10]).
  set (st0 := fresh (str "ziptest.zip")).
  assert (Hname : size name <= 0xffff) by (vm_compute; discriminate).
  destruct (add_stored_returns now name data None 0 st0 u Hname Hu) as [st H].
  rewrite H. exists st.
  apply add_file_from_buffers_returned in H
    as (_ & u' & h & payload & _ & _ & _ & _ & _ & _ & _ & _ & [Hp _] & Hcd & Hn & _ & Hfs).
  destruct (Hfs (good_fresh _)) as [Hg Hc].
  destruct (close_open st Hg) as (st1 & e & Hclose & Hout & He & _).
  exists st1. split; [reflexivity|]. split; [assumption|].
  assert (Hn1 : num_files st1 = 1).
  { unfold close in Hclose. injection Hclose as <-. exact Hn. }
  split; [assumption|].
  rewrite Hout, Hc, Hcd, Hp. change (contents (fs_ st0)) with (@nil Z).
  change (central_dir_ st0) with (@nil Z). rewrite !app_nil_l, app_nil_r.
  split.
  - unfold size. rewrite !length_app, length_local_entry, length_central_entry, He.
    reflexivity.
  - rewrite <- app_assoc.
    exact (payload_position h name data _).
Qed.

(** C4: the program against the claim.  A call with a name of 65536 bytes
    on a freshly opened archive throws, and leaves the counter at 1 while
    the central directory is empty: it holds no record. *)
Theorem rejected_name_is_counted now buf0 buf1 ts c filename :
  exists st',
    add_file_from_buffers now (repeat 97 (Z.to_nat 65536)) buf0 buf1 ts c
      (fresh filename)
    = Thrown (runtime_error (str "Filename too long: "
                             ++ repeat 97 (Z.to_nat 65536))) st' /\
    num_files st' = 1 /\
    central_dir_ st' = [] /\
    parse_central_dir (central_dir_ st') = Some [].
Proof.
  unfold add_file_from_buffers.
  destruct (Z.gtb_spec (size (repeat 97 (Z.to_nat 65536))) 0xffff) as [_|H].
  - eexists. split; [reflexivity|]. repeat split.
  - rewrite size_repeat in H; lia.
Qed.

(** The counter after additions that all returned: the number of records
    of the central directory, modulo 2^16. *)
Lemma entry_count_of_run filename cs st :
  add_all cs (fresh filename) = Returned tt st ->
  exists recs,
    parse_central_dir (central_dir_ st) = Some recs /\
    length recs = length cs /\
    num_files st = Z.of_nat (length recs) mod 2 ^ 16.
Proof.
  intros H.
  destruct (add_all_records cs _ [] _ (good_fresh filename)
              ltac:(cbn; lia) (parse_fresh filename) H)
    as (_ & _ & Hn & recs & Hp & Hlen & _).
  exists recs. split; [assumption|]. split; [assumption|].
  unfold num_files. rewrite Hn, Hlen. reflexivity.
Qed.

Lemma filename_too_long_message name :
  runtime_error (str "Failed to initialize zlib")
  <> runtime_error (str "Filename too long: " ++ name).
Proof. intros H. inversion H. Qed.

(** C6. A name longer than 65535 bytes makes [add_file_from_buffers] throw
    the "Filename too long" error with the output stream and the central
    directory exactly as they were before the call; a name of at most 65535
    bytes never makes it throw that error. *)
Theorem name_length_validation now name buf0 buf1 ts c st :
  (0xffff < size name ->
   exists st',
     add_file_from_buffers now name buf0 buf1 ts c st
     = Thrown (runtime_error (str "Filename too long: " ++ name)) st' /\
     fs_ st' = fs_ st /\ central_dir_ st' = central_dir_ st) /\
  (size name <= 0xffff ->
   forall st',
     add_file_from_buffers now name buf0 buf1 ts c st
     <> Thrown (runtime_error (str "Filename too long: " ++ name)) st').
Proof.
  split; intros Hname.
  - unfold add_file_from_buffers.
    destruct (Z.gtb_spec (size name) 0xffff); [|lia].
    eexists. split; [reflexivity|]. split; reflexivity.
  - intros st'. unfold add_file_from_buffers.
    destruct (Z.gtb_spec (size name) 0xffff); [lia|].
    destruct (gmtime _); [|discriminate].
    destruct c; [discriminate|].
    destruct (deflate_payload _ _ _); try discriminate.
    all: intros H; injection H as H _; now apply filename_too_long_message in H.
Qed.

(** C7, as amended.  For a call with a nonzero timestamp that returns, on
    an open stream: the time field of the local header is
    hour * 2048 + minute * 32 + second / 2, and the date field is
    (year - 1980) * 512 + month * 32 + day reduced modulo 65536, which is
    that number itself when the year lies in 1980..2107; here the calendar
    values are those of [gmtime] on the timestamp. *)
Theorem dos_fields_of_timestamp now name buf0 buf1 ts c st r st' :
  good (fs_ st) ->
  ts <> 0 ->
  add_file_from_buffers now name buf0 buf1 ts c st = Returned r st' ->
  exists u,
    gmtime ts = Some u /\
    let p := length (contents (fs_ st)) in
    let year := tm_year u + 1900 in
    let month := tm_mon u + 1 in
    let day := tm_mday u in
    field (p + 10) 2 (contents (fs_ st'))
    = tm_hour u * 2048 + tm_min u * 32 + tm_sec u / 2 /\
    field (p + 12) 2 (contents (fs_ st'))
    = ((year - 1980) * 512 + month * 32 + day) mod 65536 /\
    (1980 <= year <= 2107 ->
     field (p + 12) 2 (contents (fs_ st'))
     = (year - 1980) * 512 + month * 32 + day).
Proof.
  intros Hg Hts H.
  apply add_file_from_buffers_returned in H
    as (_ & u & h & payload & Hu & Ht & Hd & _ & _ & _ & _ & _ & _ & _ & _ & _ & Hfs).
  destruct (Hfs Hg) as [_ Hc].
  destruct (Z.eqb_spec ts 0) as [|_]; [contradiction|].
  exists u. split; [assumption|]. cbv zeta. rewrite Hc, !field_app_r.
  rewrite local_entry_time, local_entry_date, Ht, Hd, dos_time_u16, dos_date_u16.
  split; [exact (dos_time_formula _ _ Hu)|].
  split; [exact (dos_date_formula _ _ Hu)|].
  intros Hy. exact (dos_date_exact _ _ Hu Hy).
Qed.



(** What a call with a count that is negative as [std::streamsize] has
    done when it returns. *)
Lemma add_file_from_buffers_negative_returned now name buf0 size1 ts st r st' :
  add_file_from_buffers_negative now name buf0 size1 ts st = Returned r st' ->
  size name <= 0xffff /\
  exists u h,
    gmtime (if ts =? 0 then now else ts) = Some u /\
    last_mod_file_time h = dos_time u /\
    last_mod_file_date h = dos_date u /\
    compression_method h = method_code STORED /\
    uncompressed_size h = r /\
    r = to_u32 (to_u64 (size buf0 + size1)) /\
    central_dir_ st' =
      central_dir_ st ++ central_entry h (to_u32 (tellp (fs_ st))) name /\
    num_entries_ st' = to_u16 (num_entries_ st + 1) /\
    failed (fs_ st') = true /\
    (good (fs_ st) ->
     contents (fs_ st') = contents (fs_ st) ++ local_entry h name buf0).
Proof.
  unfold add_file_from_buffers_negative.
  destruct (Z.gtb_spec (size name) 0xffff) as [|Hname]; [discriminate|].
  rewrite (firstn_name _ Hname).
  destruct (gmtime _) as [u|] eqn:Hu; [|discriminate].
  set (h := fill_local_header _ _ _ _ _ _).
  intros Heq.
  pose proof (f_equal (fun o => match o with Returned x _ => x | _ => 0 end) Heq) as Hr.
  pose proof (f_equal (fun o => match o with Returned _ s => s | _ => st end) Heq) as Hs.
  cbv beta iota in Hr, Hs. subst r st'. clear Heq.
  split; [assumption|].
  exists u, h.
  cbn [central_dir_ num_entries_ filename_ fs_].
  do 6 (split; [first [reflexivity | assumption]|]).
  split.
  { unfold central_entry, write4, write2. cbn [write ostringstream_ostream].
    now rewrite <- !app_assoc. }
  do 2 (split; [reflexivity|]).
  intros Hg. unfold write4, fs_write_negative. cbn [contents].
  destruct (good_write _ (le_bytes 4 ZIP_LOCAL_FILE_HEADER_SIG) Hg) as [G1 C1].
  destruct (good_write _ (local_header_bytes h) G1) as [G2 C2].
  destruct (good_write _ name G2) as [G3 C3].
  destruct (good_write _ buf0 G3) as [_ C4].
  unfold local_entry. rewrite C4, C3, C2, C1. now rewrite <- !app_assoc.
Qed.



End Addition.

(** ** Concrete runs *)

Example to_string_largest :
  to_string 18446744073709551615 = str "18446744073709551615".
Proof. reflexivity. Qed.

Example header_of_3_by_2 :
  create_npy_header (numpy_descr float) [3; 2]
  = Some (npy_magic ++ [118; 0]
          ++ str "{'descr': '<f4', 'fortran_order': False, 'shape': (3,2)}"
          ++ repeat 32 61 ++ [10]).
Proof. reflexivity. Qed.

Example header_of_7 :
  create_npy_header (numpy_descr int64_t) [7]
  = Some (npy_magic ++ [118; 0]
          ++ str "{'descr': '<i8', 'fortran_order': False, 'shape': (7,)}"
          ++ repeat 32 62 ++ [10]).
Proof. reflexivity. Qed.

(** The array of the test file: six floats in a 3 by 2 array named
    "matrix" take 152 bytes in the archive, which has 270 bytes once
    closed. *)
Example simple_npz :
  exists st st1,
    add_array (zlib := null_zlib) a_clock float (str "matrix")
      (Some (repeat 0 24)) [3; 2] 0 (fresh (str "npztest"))
    = Returned 152 st /\
    filename_ st = str "npztest.npz" /\
    close st = Returned tt st1 /\
    size (contents (fs_ st1)) = 270.
Proof.
  eexists _, _. split; [vm_compute; reflexivity|].
  split; [reflexivity|]. split; [reflexivity|]. vm_compute. reflexivity.
Qed.

(** An array of 2^31 one-byte elements: the element count is -2^31 as an
    [int], and the byte count, 2^64 - 2^31, is negative as the count of
    [write].  The call puts the local header, the name and the 128 bytes of
    the array header, the sink fails, the entry is recorded and the value
    returned is 2^31 + 128. *)
Example array_of_2GiB_elements (d : bytes) :
  exists st,
    add_array (zlib := null_zlib) a_clock int8_t (str "x") (Some d)
      [2147483648] 0 (fresh (str "a.npz"))
    = Returned 2147483776 st /\
    size (contents (fs_ st)) = 30 + 5 + 128 /\
    failed (fs_ st) = true /\
    size (central_dir_ st) = 46 + 5 /\
    num_entries_ st = 1.
Proof.
  eexists. split; [vm_compute; reflexivity|].
  repeat split.
Qed.


Lemma size_huge : size huge = 2 ^ 32.
Proof. apply size_repeat. lia. Qed.

Lemma gmtime_a_clock :
  gmtime a_clock
  = Some {| tm_sec := 20; tm_min := 13; tm_hour := 22; tm_mday := 14;
            tm_mon := 10; tm_year := 123 |}.
Proof. vm_compute. reflexivity. Qed.

Lemma simple_zip_witness :
  exists st st1,
    add_file (zlib := null_zlib) a_clock (str "bubble.txt")
      (str "Words are loud" ++ [10]) 0 (fresh (str "ziptest.zip"))
    = Returned tt st /\
    close st = Returned tt st1 /\
    num_files st1 = 1 /\
    size (contents (fs_ st1)) = 133 /\
    firstn 15 (skipn 40 (contents (fs_ st1))) = str "Words are loud" ++ [10].
Proof.
  eapply (simple_zip (zlib := null_zlib) a_clock). vm_compute. reflexivity.
Defined.




(** Against C7 as stated: for the timestamp 1 (1970-01-01 00:00:01 UTC)
    the date field holds 60449, and the formula gives -5087. *)
Lemma date_field_before_1980 :
  exists r st' u,
    add_file_from_buffers (zlib := null_zlib) a_clock (str "a") [] None 1
      STORED (fresh (str "old.zip")) = Returned r st' /\
    gmtime 1 = Some u /\
    field 12 2 (contents (fs_ st')) = 60449 /\
    (tm_year u + 1900 - 1980) * 512 + (tm_mon u + 1) * 32 + tm_mday u = -5087.
Proof.
  eexists _, _, _. split; [vm_compute; reflexivity|].
  split; [vm_compute; reflexivity|].
  split; vm_compute; reflexivity.
Qed.

(** One fragment of 4 GiB through the deflate branch: zlib is given no
    input, and the branch ends without a failed assertion. *)
Lemma deflate_4GiB (b : bytes) : size b = 2 ^ 32 ->
  exists strm,
    deflate_payload (zlib := null_zlib) b None (to_u32 (size b + size_opt None))
    = Deflated strm [3; 0] /\
    history strm = [([], Z_FINISH, Z_STREAM_END)] /\
    total_in strm = 0.
Proof.
  intros Hb. unfold deflate_payload, compress_chunk, deflate.
  rewrite !Hb. eexists. split; [vm_compute; reflexivity|].
  split; reflexivity.
Qed.

(** Against C9 as stated: a deflated entry of one fragment of 2^32 bytes
    is added, the call returns, and at the end of the session the counter
    of consumed bytes is 0: the encoder was handed an empty input. *)
Lemma consumed_counter_of_4GiB_fragment :
  exists r st' strm compressed,
    add_file_from_buffers (zlib := null_zlib) a_clock (str "a") huge None 0
      DEFLATE (fresh (str "big.zip")) = Returned r st' /\
    deflate_payload (zlib := null_zlib) huge None
      (to_u32 (size huge + size_opt None)) = Deflated strm compressed /\
    history strm = [([], Z_FINISH, Z_STREAM_END)] /\
    total_in strm = 0 /\
    size huge + size_opt None = 2 ^ 32 /\
    total_in strm <> size huge + size_opt None.
Proof.
  destruct (deflate_4GiB huge size_huge) as (strm & Hd & Hh & Hin).
  destruct (add_deflate_returns (zlib := null_zlib) a_clock (str "a") huge None 0
              (fresh (str "big.zip")) _ strm [3; 0]
              ltac:(vm_compute; discriminate) gmtime_a_clock Hd) as [st' H].
  exists (to_u32 (total_out strm)), st', strm, [3; 0].
  split; [assumption|]. split; [assumption|]. split; [assumption|].
  split; [assumption|].
  assert (Hs : size huge + size_opt None = 2 ^ 32)
    by (rewrite size_huge; reflexivity).
  split; [assumption|]. rewrite Hs, Hin. discriminate.
Qed.



Lemma name_length_validation_witness :
  (exists st',
     add_file_from_buffers (zlib := null_zlib) a_clock
       (repeat 97 (Z.to_nat 65536)) [] None 0 STORED (fresh (str "t.zip"))
     = Thrown (runtime_error (str "Filename too long: "
                              ++ repeat 97 (Z.to_nat 65536))) st' /\
     fs_ st' = fs_ (fresh (str "t.zip")) /\
     central_dir_ st' = central_dir_ (fresh (str "t.zip"))) /\
  (forall st',
     add_file_from_buffers (zlib := null_zlib) a_clock (str "a") [] None 0
       STORED (fresh (str "t.zip"))
     <> Thrown (runtime_error (str "Filename too long: " ++ str "a")) st').
Proof.
  split.
  - apply (name_length_validation (zlib := null_zlib)).
    vm_compute. reflexivity.
  - apply (name_length_validation (zlib := null_zlib)).
    vm_compute. discriminate.
Defined.

Lemma dos_fields_of_timestamp_witness :
  exists u,
    gmtime 946684800 = Some u /\
    field 10 2 (contents (fs_ after_stamped)) = 0 /\
    field 12 2 (contents (fs_ after_stamped)) = (2000 - 1980) * 512 + 1 * 32 + 1.
Proof.
  destruct (dos_fields_of_timestamp (zlib := null_zlib) a_clock (str "a")
              (str "x") (Some (str "yz")) 946684800 DEFLATE
              (fresh (str "t.zip")) 2 after_stamped
              ltac:(split; reflexivity) ltac:(discriminate)
              ltac:(vm_compute; reflexivity))
    as (u & Hu & Ht & _ & Hd).
  assert (Hv : u = {| tm_sec := 0; tm_min := 0; tm_hour := 0; tm_mday := 1;
                      tm_mon := 0; tm_year := 100 |}).
  { assert (Hg : gmtime 946684800
                 = Some {| tm_sec := 0; tm_min := 0; tm_hour := 0; tm_mday := 1;
                           tm_mon := 0; tm_year := 100 |})
      by (vm_compute; reflexivity).
    rewrite Hg in Hu. injection Hu as Hu. symmetry. exact Hu. }
  exists u. split; [exact Hu|]. rewrite Hv in Ht, Hd. split; [exact Ht|].
  apply Hd. vm_compute. split; discriminate.
Defined.

Lemma npy_header_layout_witness :
  exists header,
    create_npy_header (numpy_descr float) [3; 2] = Some header /\
    size header = 128 /\
    size header mod 64 = 0.
Proof.
  destruct (proj1 (npy_header_layout float [3; 2] ltac:(discriminate))
              ltac:(vm_compute; discriminate))
    as (header & Hc & Hs & Hm & _).
  exists header. split; [exact Hc|]. split; [exact Hs|exact Hm].
Defined.

Lemma deflate_session_witness :
  exists strm compressed,
    deflate_payload (zlib := null_zlib) (str "x") (Some (str "yz"))
      (to_u32 (size (str "x") + size_opt (Some (str "yz"))))
    = Deflated strm compressed /\
    (exists ret, (ret = Z_OK \/ ret = Z_BUF_ERROR) /\
       history strm
       = [(fed (str "x"), Z_NO_FLUSH, ret);
          (fed (str "yz"), Z_FINISH, Z_STREAM_END)]) /\
    total_in strm = 3 /\
    fed (str "x") = str "x" /\ fed (str "yz") = str "yz".
Proof.
  destruct (deflate_session (zlib := null_zlib) a_clock (str "a")
              (str "x") (Some (str "yz")) 946684800
              (fresh (str "t.zip")) 2 after_stamped
              ltac:(vm_compute; reflexivity))
    as (strm & compressed & Hd & Hh & _ & Hexact).
  exists strm, compressed. split; [exact Hd|]. split; [exact Hh|].
  apply Hexact. vm_compute. reflexivity.
Defined.



(** ** File names *)

Lemma ends_with_app a e : ends_with (a ++ e) e = true.
Proof.
  unfold ends_with. rewrite length_app.
  replace (length a + length e - length e)%nat with (length a) by lia.
  rewrite skipn_app, skipn_all, Nat.sub_diag, skipn_O, app_nil_l.
  destruct (list_eq_dec Z.eq_dec e e); [|contradiction].
  rewrite andb_true_r. apply Nat.leb_le. lia.
Qed.

Lemma ends_with_suffix s e : ends_with s e = true -> exists a, s = a ++ e.
Proof.
  unfold ends_with. intros H. apply andb_prop in H as [_ H].
  destruct (list_eq_dec Z.eq_dec _ e) as [He|]; [|discriminate].
  exists (firstn (length s - length e) s).
  pose proof (firstn_skipn (length s - length e) s) as Hs.
  rewrite He in Hs. now symmetry.
Qed.

Lemma filename_with_extension_suffix filename extension :
  ends_with (filename_with_extension filename extension) extension = true.
Proof.
  unfold filename_with_extension.
  destruct (ends_with filename extension) eqn:E;
    [assumption|apply ends_with_app].
Qed.

Lemma filename_with_extension_twice filename extension :
  filename_with_extension (filename_with_extension filename extension) extension
  = filename_with_extension filename extension.
Proof.
  unfold filename_with_extension at 1.
  now rewrite filename_with_extension_suffix.
Qed.

(** [filename_with_extension] returns a name that ends with the extension
    and starts with the name it was given; a name that already ends with
    the extension is returned as it is, so applying the function twice
    changes nothing more. *)
Theorem filename_with_extension_ends filename extension :
  ends_with (filename_with_extension filename extension) extension = true /\
  (filename_with_extension filename extension = filename \/
   filename_with_extension filename extension = filename ++ extension) /\
  (forall base, filename = base ++ extension ->
     filename_with_extension filename extension = filename) /\
  filename_with_extension (filename_with_extension filename extension) extension
  = filename_with_extension filename extension.
Proof.
  assert (H : ends_with (filename_with_extension filename extension) extension
              = true).
  { unfold filename_with_extension.
    destruct (ends_with filename extension) eqn:E;
      [assumption|apply ends_with_app]. }
  split; [assumption|]. split.
  { unfold filename_with_extension. destruct (ends_with filename extension);
      [now left|now right]. }
  split.
  { intros base ->. unfold filename_with_extension. now rewrite ends_with_app. }
  unfold filename_with_extension at 1. now rewrite H.
Qed.

(** The constructor resolves the file name once: a name ending in ".zip"
    or in ".npz" is kept as it is, and any other name gets ".npz" appended;
    so the resolved name always ends in one of the two and resolving it
    again changes nothing.  When the file opens the archive is empty; when
    it does not, the error names the resolved file. *)
Theorem archive_name_resolution filename :
  exists name,
    (ends_with name (str ".zip") = true \/ ends_with name (str ".npz") = true) /\
    (name = filename \/ name = filename ++ str ".npz") /\
    (forall base, filename = base ++ str ".zip" -> name = filename) /\
    (forall base, filename = base ++ str ".npz" -> name = filename) /\
    (ends_with filename (str ".zip") = false ->
     ends_with filename (str ".npz") = false ->
     name = filename ++ str ".npz") /\
    NpzFile_new filename true
    = inr {| filename_ := name;
             fs_ := {| contents := []; is_open := true; failed := false |};
             central_dir_ := [];
             num_entries_ := 0 |} /\
    NpzFile_new filename false
    = inl (runtime_error (str "Failed to open file: " ++ name)) /\
    NpzFile_new name true = NpzFile_new filename true /\
    fresh filename
    = {| filename_ := name;
         fs_ := {| contents := []; is_open := true; failed := false |};
         central_dir_ := [];
         num_entries_ := 0 |}.
Proof.
  unfold NpzFile_new, fresh.
  destruct (ends_with filename (str ".zip")) eqn:Ez.
  - exists filename. split; [now left|]. split; [now left|].
    split; [reflexivity|]. split; [reflexivity|].
    split; [discriminate|].
    rewrite Ez. repeat split.
  - pose proof (filename_with_extension_suffix filename (str ".npz")) as He.
    pose proof (filename_with_extension_twice filename (str ".npz")) as Hidem.
    assert (Hor : filename_with_extension filename (str ".npz") = filename \/
                  filename_with_extension filename (str ".npz")
                  = filename ++ str ".npz").
    { unfold filename_with_extension.
      destruct (ends_with filename (str ".npz")); [now left|now right]. }
    exists (filename_with_extension filename (str ".npz")).
    split; [now right|]. split; [assumption|].
    split.
    { intros base Hb. rewrite Hb, ends_with_app in Ez. discriminate. }
    split.
    { intros base Hb. unfold filename_with_extension.
      now rewrite Hb, ends_with_app. }
    split.
    { intros _ Hn. unfold filename_with_extension. now rewrite Hn. }
    split; [reflexivity|]. split; [reflexivity|]. split; [|reflexivity].
    destruct (ends_with (filename_with_extension filename (str ".npz"))
                (str ".zip")); [reflexivity|].
    now rewrite Hidem.
Qed.

Lemma archive_name_resolution_witness :
  NpzFile_new (str "ziptest.zip") true
  = inr {| filename_ := str "ziptest.zip";
           fs_ := {| contents := []; is_open := true; failed := false |};
           central_dir_ := [];
           num_entries_ := 0 |} /\
  NpzFile_new (str "archive.npz") true
  = inr {| filename_ := str "archive.npz";
           fs_ := {| contents := []; is_open := true; failed := false |};
           central_dir_ := [];
           num_entries_ := 0 |} /\
  NpzFile_new (str "npztest") false
  = inl (runtime_error (str "Failed to open file: npztest.npz")).
Proof.
  split; [|split].
  - destruct (archive_name_resolution (str "ziptest.zip"))
      as (name & _ & _ & Hzip & _ & _ & Hnew & _).
    rewrite Hnew, (Hzip (str "ziptest") eq_refl). reflexivity.
  - destruct (archive_name_resolution (str "archive.npz"))
      as (name & _ & _ & _ & Hnpz & _ & Hnew & _).
    rewrite Hnew, (Hnpz (str "archive") eq_refl). reflexivity.
  - destruct (archive_name_resolution (str "npztest"))
      as (name & _ & _ & _ & _ & Hother & _ & Hfail & _).
    rewrite Hfail, (Hother eq_refl eq_refl). reflexivity.
Defined.

(** ** Fields written and read *)

Lemma le_bytes_range n : forall v, Forall (fun b => 0 <= b < 256) (le_bytes n v).
Proof.
  induction n; intros v; cbn [le_bytes]; constructor; [|apply IHn].
  apply Z.mod_pos_bound. lia.
Qed.

Lemma field_at_end s n v :
  field (length s) n (s ++ le_bytes n v) = v mod 256 ^ Z.of_nat n.
Proof.
  rewrite <- (Nat.add_0_r (length s)), field_app_r. unfold field.
  rewrite skipn_O, <- (length_le_bytes n v) at 1.
  now rewrite firstn_all, le_value_le_bytes.
Qed.

(** [write2] and [write4] append 2 and 4 bytes, each below 256, and these
    bytes read back, least significant first, as the value modulo 2^16 and
    2^32; this holds on a string stream and on a file stream that is open
    and has not failed. *)
Theorem written_fields_read_back v :
  (forall s : ostringstream,
     write2 s v = s ++ le_bytes 2 v /\
     write4 s v = s ++ le_bytes 4 v /\
     field (length s) 2 (write2 s v) = v mod 2 ^ 16 /\
     field (length s) 4 (write4 s v) = v mod 2 ^ 32) /\
  (forall fs : ofstream, good fs ->
     good (write2 fs v) /\ good (write4 fs v) /\
     length (contents (write2 fs v)) = (length (contents fs) + 2)%nat /\
     length (contents (write4 fs v)) = (length (contents fs) + 4)%nat /\
     field (length (contents fs)) 2 (contents (write2 fs v)) = v mod 2 ^ 16 /\
     field (length (contents fs)) 4 (contents (write4 fs v)) = v mod 2 ^ 32) /\
  Forall (fun b => 0 <= b < 256) (le_bytes 2 v) /\
  Forall (fun b => 0 <= b < 256) (le_bytes 4 v).
Proof.
  split; [|split; [|split; apply le_bytes_range]].
  - intros s. unfold write2, write4. cbn [write ostringstream_ostream].
    split; [reflexivity|]. split; [reflexivity|].
    split; apply field_at_end.
  - intros fs Hg. unfold write2, write4.
    destruct (good_write fs (le_bytes 2 v) Hg) as [G2 C2].
    destruct (good_write fs (le_bytes 4 v) Hg) as [G4 C4].
    split; [assumption|]. split; [assumption|].
    rewrite C2, C4, !length_app, !length_le_bytes.
    split; [reflexivity|]. split; [reflexivity|].
    split; apply field_at_end.
Qed.

Lemma written_fields_read_back_witness :
  field 0 4 (contents (write4 (fs_ (fresh (str "t.zip"))) ZIP_LOCAL_FILE_HEADER_SIG))
  = ZIP_LOCAL_FILE_HEADER_SIG mod 2 ^ 32.
Proof.
  apply (proj1 (proj2 (written_fields_read_back ZIP_LOCAL_FILE_HEADER_SIG))
           (fs_ (fresh (str "t.zip")))).
  split; reflexivity.
Defined.

(** ** The layout of an entry *)

Lemma size_resize v n : 0 <= n -> size (resize v n) = n.
Proof.
  intros H. unfold resize, size.
  rewrite length_app, length_firstn, repeat_length. lia.
Qed.

Section Layout.
Context {zlib : Zlib}.

Lemma compress_chunk_total_out strm buffer source dest dest_len finish strm' buffer' :
  compress_chunk strm buffer source dest dest_len finish = Some (strm', buffer') ->
  total_out strm <= total_out strm'.
Proof.
  unfold compress_chunk, deflate.
  cbn [internal next_in avail_out total_out next_out avail_in total_in history].
  destruct (deflate_engine _ _ _ _) as [[[ret c] p] s'].
  set (q := firstn _ p). pose proof (size_nonneg q) as Hq.
  destruct finish.
  - destruct (ret =? Z_STREAM_END); [|discriminate].
    intros H. injection H as <- _. cbn [total_out]. lia.
  - destruct ((ret =? Z_OK) || (ret =? Z_BUF_ERROR)); [|discriminate].
    intros H. injection H as <- _. cbn [total_out]. lia.
Qed.

(** The vector [compressed] ends with as many bytes as zlib reports to
    have produced. *)
Lemma deflate_payload_size buf0 buf1 total_size strm compressed :
  deflate_payload buf0 buf1 total_size = Deflated strm compressed ->
  0 <= total_out strm /\ size compressed = total_out strm.
Proof.
  unfold deflate_payload.
  destruct deflateInit2 as [s0|]; [|discriminate].
  destruct (compress_chunk _ _ buf0 _ _ _) as [[strm1 c1]|] eqn:H1;
    [|discriminate].
  apply compress_chunk_total_out in H1. cbn [total_out] in H1.
  destruct (avail_in strm1 =? 0); [|discriminate].
  destruct buf1 as [b1|].
  - destruct (compress_chunk _ _ b1 _ _ _) as [[strm2 c2]|] eqn:H2;
      [|discriminate].
    apply compress_chunk_total_out in H2.
    destruct (total_in strm2 =? total_size); [|discriminate].
    intros H. injection H as <- <-.
    split; [lia|apply size_resize; lia].
  - destruct (total_in strm1 =? total_size); [|discriminate].
    intros H. injection H as <- <-.
    split; [lia|apply size_resize; lia].
Qed.

(** Everything a call that returns has written, on an open stream: the
    local header is the struct with its defaults and the fields the call
    assigns, the same struct goes into the central directory, and the
    value returned is the compressed-size field. *)
Lemma entry_layout now name buf0 buf1 ts c st r st' :
  good (fs_ st) ->
  add_file_from_buffers now name buf0 buf1 ts c st = Returned r st' ->
  exists u payload,
    gmtime (if ts =? 0 then now else ts) = Some u /\
    size name <= 0xffff /\
    good (fs_ st') /\
    contents (fs_ st')
    = contents (fs_ st)
      ++ local_entry (fill_local_header u (method_code c) 0 r
                        (to_u32 (size buf0 + size_opt buf1))
                        (to_u32 (size name))) name payload /\
    central_dir_ st'
    = central_dir_ st
      ++ central_entry (fill_local_header u (method_code c) 0 r
                          (to_u32 (size buf0 + size_opt buf1))
                          (to_u32 (size name)))
           (to_u32 (size (contents (fs_ st)))) name /\
    num_entries_ st' = to_u16 (num_entries_ st + 1) /\
    filename_ st' = filename_ st /\
    r = to_u32 (size payload) /\
    match c with
    | STORED => payload = buf0 ++ match buf1 with Some b1 => b1 | None => [] end
    | DEFLATE =>
      exists strm,
        deflate_payload buf0 buf1 (to_u32 (size buf0 + size_opt buf1))
        = Deflated strm payload /\
        size payload = total_out strm
    end.
Proof.
  intros Hg. rewrite <- (good_tellp _ Hg).
  unfold add_file_from_buffers.
  destruct (Z.gtb_spec (size name) 0xffff) as [|Hname]; [discriminate|].
  rewrite (firstn_name _ Hname).
  destruct (gmtime _) as [u|] eqn:Hu; [|discriminate].
  destruct c.
  - (* STORED *)
    set (h := fill_local_header _ _ _ _ _ _).
    intros Heq.
    pose proof (f_equal (fun o => match o with Returned x _ => x | _ => 0 end) Heq) as Hr.
    pose proof (f_equal (fun o => match o with Returned _ s => s | _ => st end) Heq) as Hs.
    cbv beta iota in Hr, Hs. cbn [compressed_size] in Hr. subst h.
    cbn [fill_local_header compressed_size] in Hr. subst r st'. clear Heq.
    set (h := fill_local_header _ _ _ _ _ _).
    exists u, (buf0 ++ match buf1 with Some b1 => b1 | None => [] end).
    cbn [central_dir_ num_entries_ filename_ fs_].
    split; [reflexivity|]. split; [assumption|].
    assert (Hw : good (match buf1 with
                   | Some b1 =>
                     write (write (write (write (write4 (fs_ st)
                       ZIP_LOCAL_FILE_HEADER_SIG) (local_header_bytes h)) name) buf0) b1
                   | None =>
                     write (write (write (write4 (fs_ st)
                       ZIP_LOCAL_FILE_HEADER_SIG) (local_header_bytes h)) name) buf0
                   end) /\
                 contents (match buf1 with
                   | Some b1 =>
                     write (write (write (write (write4 (fs_ st)
                       ZIP_LOCAL_FILE_HEADER_SIG) (local_header_bytes h)) name) buf0) b1
                   | None =>
                     write (write (write (write4 (fs_ st)
                       ZIP_LOCAL_FILE_HEADER_SIG) (local_header_bytes h)) name) buf0
                   end)
                 = contents (fs_ st)
                   ++ local_entry h name
                        (buf0 ++ match buf1 with Some b1 => b1 | None => [] end)).
    { unfold write4.
      destruct (good_write _ (le_bytes 4 ZIP_LOCAL_FILE_HEADER_SIG) Hg) as [G1 C1].
      destruct (good_write _ (local_header_bytes h) G1) as [G2 C2].
      destruct (good_write _ name G2) as [G3 C3].
      destruct (good_write _ buf0 G3) as [G4 C4].
      unfold local_entry. destruct buf1 as [b1|].
      + destruct (good_write _ b1 G4) as [G5 C5]. split; [exact G5|].
        rewrite C5, C4, C3, C2, C1. now rewrite <- !app_assoc.
      + split; [exact G4|].
        rewrite C4, C3, C2, C1, app_nil_r. now rewrite <- !app_assoc. }
    destruct Hw as [Hw1 Hw2].
    split; [exact Hw1|]. split; [exact Hw2|].
    split.
    { unfold central_entry, write4, write2. cbn [write ostringstream_ostream].
      now rewrite <- !app_assoc. }
    do 2 (split; [reflexivity|]).
    split; [|reflexivity].
    f_equal. rewrite size_app. destruct buf1; reflexivity.
  - (* DEFLATE *)
    destruct (deflate_payload _ _ _) as [| |strm compressed] eqn:Hd;
      try discriminate.
    destruct (deflate_payload_size _ _ _ _ _ Hd) as [Hpos Hsize].
    set (h := fill_local_header _ _ _ _ _ _).
    intros Heq.
    pose proof (f_equal (fun o => match o with Returned x _ => x | _ => 0 end) Heq) as Hr.
    pose proof (f_equal (fun o => match o with Returned _ s => s | _ => st end) Heq) as Hs.
    cbv beta iota in Hr, Hs. subst h.
    cbn [fill_local_header compressed_size] in Hr. subst r st'. clear Heq.
    set (h := fill_local_header _ _ _ _ _ _).
    exists u, compressed.
    cbn [central_dir_ num_entries_ filename_ fs_].
    split; [reflexivity|]. split; [assumption|].
    unfold write4.
    destruct (good_write _ (le_bytes 4 ZIP_LOCAL_FILE_HEADER_SIG) Hg) as [G1 C1].
    destruct (good_write _ (local_header_bytes h) G1) as [G2 C2].
    destruct (good_write _ name G2) as [G3 C3].
    destruct (good_write _ compressed G3) as [G4 C4].
    split; [exact G4|]. split.
    { unfold local_entry. rewrite C4, C3, C2, C1. now rewrite <- !app_assoc. }
    split.
    { unfold central_entry, write2. cbn [write ostringstream_ostream].
      now rewrite <- !app_assoc. }
    do 2 (split; [reflexivity|]).
    split; [now rewrite Hsize|].
    exists strm. split; [reflexivity|assumption].
Qed.


Section LocalEntryFields.
Variables (h : ZipLocalFileHeader) (name payload : bytes).

Lemma local_entry_f4 :
  field 4 2 (local_entry h name payload) = to_u16 (version_needed_to_extract h).
Proof. read_field. Qed.

Lemma local_entry_f6 :
  field 6 2 (local_entry h name payload) = to_u16 (general_purpose_bit_flag h).
Proof. read_field. Qed.

Lemma local_entry_f8 :
  field 8 2 (local_entry h name payload) = to_u16 (compression_method h).
Proof. read_field. Qed.

Lemma local_entry_f14 :
  field 14 4 (local_entry h name payload) = to_u32 (crc32 h).
Proof. read_field. Qed.

Lemma local_entry_f18 :
  field 18 4 (local_entry h name payload) = to_u32 (compressed_size h).
Proof. read_field. Qed.

Lemma local_entry_f22 :
  field 22 4 (local_entry h name payload) = to_u32 (uncompressed_size h).
Proof. read_field. Qed.

Lemma local_entry_f26 :
  field 26 2 (local_entry h name payload) = to_u16 (filename_length h).
Proof. read_field. Qed.

Lemma local_entry_f28 :
  field 28 2 (local_entry h name payload) = to_u16 (extra_field_length h).
Proof. read_field. Qed.

Lemma local_entry_header :
  firstn 26 (skipn 4 (local_entry h name payload)) = local_header_bytes h.
Proof. reflexivity. Qed.

Lemma local_entry_name :
  firstn (length name) (skipn 30 (local_entry h name payload)) = name.
Proof.
  change (skipn 30 (local_entry h name payload)) with (name ++ payload).
  rewrite firstn_app, firstn_all, Nat.sub_diag, firstn_O. apply app_nil_r.
Qed.

End LocalEntryFields.

Section CentralEntryFields.
Variables (h : ZipLocalFileHeader) (off : Z) (name : bytes).

Lemma central_entry_f34 : field 34 2 (central_entry h off name) = to_u16 0.
Proof. read_field. Qed.

Lemma central_entry_f36 : field 36 2 (central_entry h off name) = to_u16 0.
Proof. read_field. Qed.

Lemma central_entry_f38 : field 38 4 (central_entry h off name) = to_u32 0.
Proof. read_field. Qed.

Lemma central_entry_header :
  firstn 26 (skipn 6 (central_entry h off name)) = local_header_bytes h.
Proof. reflexivity. Qed.

End CentralEntryFields.

Lemma skipn_app_r {A} (a b : list A) n :
  skipn (length a + n) (a ++ b) = skipn n b.
Proof.
  rewrite skipn_app, skipn_all2 by lia.
  now replace (length a + n - length a)%nat with n by lia.
Qed.

Lemma method_code_u16 c : to_u16 (method_code c) = method_code c.
Proof. now destruct c. Qed.

(** The local header as a reader finds it, at the position where the call
    started writing: signature, version 20, no flags, the method code, a
    CRC-32 of 0 whatever the payload, the value returned as compressed
    size, the total length of the fragments modulo 2^32 as uncompressed
    size, the length of the name, no extra field, and then the name. *)
Theorem local_header_fields now name buf0 buf1 ts c st r st' :
  good (fs_ st) ->
  add_file_from_buffers now name buf0 buf1 ts c st = Returned r st' ->
  let p := length (contents (fs_ st)) in
  let out := contents (fs_ st') in
  field p 4 out = 0x04034b50 /\
  field (p + 4) 2 out = 20 /\
  field (p + 6) 2 out = 0 /\
  field (p + 8) 2 out = method_code c /\
  field (p + 14) 4 out = 0 /\
  field (p + 18) 4 out = r /\
  field (p + 22) 4 out = (size buf0 + size_opt buf1) mod 2 ^ 32 /\
  field (p + 26) 2 out = size name /\
  field (p + 28) 2 out = 0 /\
  firstn (length name) (skipn (p + 30) out) = name.
Proof.
  intros Hg H p out.
  destruct (entry_layout _ _ _ _ _ _ _ _ _ Hg H)
    as (u & payload & _ & Hname & _ & Hc & _ & _ & _ & Hr & _).
  subst out p. rewrite Hc, !field_app_r, skipn_app_r.
  rewrite <- (Nat.add_0_r (length (contents (fs_ st)))) at 1.
  rewrite field_app_r.
  rewrite local_entry_signature, local_entry_f4, local_entry_f6, local_entry_f8,
    local_entry_f14, local_entry_f18, local_entry_f22, local_entry_f26,
    local_entry_f28, local_entry_name.
  cbn [fill_local_header version_needed_to_extract general_purpose_bit_flag
       compression_method crc32 compressed_size uncompressed_size
       filename_length extra_field_length].
  pose proof (size_nonneg name).
  rewrite method_code_u16, to_u16_idem, !to_u32_idem.
  rewrite (to_u32_small (size name)) by lia.
  rewrite (to_u16_small (size name)) by lia.
  rewrite Hr at 1. rewrite to_u32_idem, <- Hr.
  repeat split.
Qed.

(** The central-directory record of an entry repeats the 26 bytes of its
    local header after the signature and the version that made it (20),
    and continues with no comment, disk 0, no attributes and the name. *)
Theorem central_record_mirrors_local_header now name buf0 buf1 ts c st r st' :
  good (fs_ st) ->
  add_file_from_buffers now name buf0 buf1 ts c st = Returned r st' ->
  let p := length (contents (fs_ st)) in
  let q := length (central_dir_ st) in
  let out := contents (fs_ st') in
  let dir := central_dir_ st' in
  length dir = (q + 46 + length name)%nat /\
  field q 4 dir = 0x02014b50 /\
  field (q + 4) 2 dir = 20 /\
  firstn 26 (skipn (q + 6) dir) = firstn 26 (skipn (p + 4) out) /\
  field (q + 32) 2 dir = 0 /\
  field (q + 34) 2 dir = 0 /\
  field (q + 36) 2 dir = 0 /\
  field (q + 38) 4 dir = 0 /\
  skipn (q + 46) dir = name.
Proof.
  intros Hg H p q out dir.
  destruct (entry_layout _ _ _ _ _ _ _ _ _ Hg H)
    as (u & payload & _ & _ & _ & Hc & Hcd & _).
  subst out dir p q. rewrite Hc, Hcd, !field_app_r, !skipn_app_r.
  rewrite <- (Nat.add_0_r (length (central_dir_ st))) at 2.
  rewrite field_app_r.
  rewrite central_entry_f0, central_entry_f4, central_entry_f32,
    central_entry_f34, central_entry_f36, central_entry_f38,
    central_entry_header, local_entry_header, central_entry_name.
  rewrite length_app, length_central_entry.
  repeat split. lia.
Qed.

End Layout.

(** ** Reading an archive back *)

Section ReadBack.
Context {zlib : Zlib}.











(** [add_file_from_buffers] on an archive that is not open, such as one
    that was closed: a call that returns has put no byte in the file, yet
    it has counted the entry and appended its record, with the offset
    4294967295 (the -1 of [tellp]), to the directory in memory. *)
Theorem add_after_close now name buf0 buf1 ts c st r st' :
  is_open (fs_ st) = false ->
  add_file_from_buffers now name buf0 buf1 ts c st = Returned r st' ->
  contents (fs_ st') = contents (fs_ st) /\
  is_open (fs_ st') = false /\
  num_entries_ st' = to_u16 (num_entries_ st + 1) /\
  length (central_dir_ st') = (length (central_dir_ st) + 46 + length name)%nat /\
  field (length (central_dir_ st) + 42) 4 (central_dir_ st') = 4294967295.
Proof.
  intros Ho H.
  assert (Hfs : contents (fs_ st') = contents (fs_ st) /\ is_open (fs_ st') = false).
  { revert H. unfold add_file_from_buffers, write4.
    cbn [write ofstream_ostream].
    destruct (Z.gtb_spec (size name) 0xffff) as [|Hname]; [discriminate|].
    destruct (gmtime _) as [u|]; [|discriminate].
    assert (W : forall s a, is_open s = false ->
              is_open (fs_write s a) = false /\
              contents (fs_write s a) = contents s)
      by (intros s a; apply closed_write).
    assert (W4 : forall s a b d e, is_open s = false ->
              is_open (fs_write (fs_write (fs_write (fs_write s a) b) d) e) = false /\
              contents (fs_write (fs_write (fs_write (fs_write s a) b) d) e)
              = contents s).
    { intros s a b d e Hs.
      destruct (W s a Hs) as [O1 C1]. destruct (W _ b O1) as [O2 C2].
      destruct (W _ d O2) as [O3 C3]. destruct (W _ e O3) as [O4 C4].
      split; [assumption|]. now rewrite C4, C3, C2, C1. }
    destruct c.
    - intros H.
      pose proof (f_equal (fun o => match o with Returned _ s => s | _ => st end) H) as Hs.
      cbv beta iota in Hs. subst st'. cbn [fs_].
      destruct buf1 as [b1|].
      + match goal with
        | |- contents (fs_write ?s b1) = _ /\ _ =>
          match s with
          | fs_write (fs_write (fs_write (fs_write _ ?a) ?b) ?d) ?e =>
            destruct (W4 (fs_ st) a b d e Ho) as [O C];
            destruct (W s b1 O) as [O5 C5]
          end
        end.
        split; [now rewrite C5, C|assumption].
      + match goal with
        | |- contents (fs_write (fs_write (fs_write (fs_write _ ?a) ?b) ?d) ?e) = _ /\ _ =>
          destruct (W4 (fs_ st) a b d e Ho) as [O C]
        end.
        split; assumption.
    - destruct (deflate_payload _ _ _) as [| |strm compressed]; try discriminate.
      intros H.
      pose proof (f_equal (fun o => match o with Returned _ s => s | _ => st end) H) as Hs.
      cbv beta iota in Hs. subst st'. cbn [fs_].
      match goal with
      | |- contents (fs_write (fs_write (fs_write (fs_write _ ?a) ?b) ?d) ?e) = _ /\ _ =>
        destruct (W4 (fs_ st) a b d e Ho) as [O C]
      end.
      split; assumption. }
  destruct Hfs as [Hc Ho'].
  apply add_file_from_buffers_returned in H
    as (_ & u & h & payload & _ & _ & _ & _ & _ & _ & _ & _ & _ & Hcd & Hn & _).
  split; [assumption|]. split; [assumption|]. split; [assumption|].
  rewrite Hcd, length_app, length_central_entry, field_app_r, central_entry_f42.
  split; [lia|].
  unfold tellp. rewrite Ho. now destruct (failed (fs_ st)).
Qed.

(** When zlib cannot be initialised, a deflated entry whose name and time
    are in order is refused with the error "Failed to initialize zlib":
    nothing is written to the file or to the central directory, but the
    entry has been counted. *)
Theorem zlib_initialisation_failure now name buf0 buf1 ts st u :
  deflateInit2 = None ->
  size name <= 0xffff ->
  gmtime (if ts =? 0 then now else ts) = Some u ->
  exists st',
    add_file_from_buffers now name buf0 buf1 ts DEFLATE st
    = Thrown (runtime_error (str "Failed to initialize zlib")) st' /\
    fs_ st' = fs_ st /\
    central_dir_ st' = central_dir_ st /\
    num_entries_ st' = to_u16 (num_entries_ st + 1).
Proof.
  intros Hinit Hname Hu. unfold add_file_from_buffers.
  destruct (Z.gtb_spec (size name) 0xffff); [lia|].
  rewrite Hu. unfold deflate_payload. rewrite Hinit.
  eexists. split; [reflexivity|]. repeat split.
Qed.

End ReadBack.

(** ** MS-DOS time and date, decoded *)

(** The two 16-bit fields unpack to the calendar values they were packed
    from: hour, minute and the second rounded down to an even number from
    the time; for the years 1980 to 2107, the year, the month and the day
    from the date. *)
Theorem dos_fields_decode t u :
  gmtime t = Some u ->
  Z.shiftr (dos_time u) 11 = tm_hour u /\
  Z.land (Z.shiftr (dos_time u) 5) 63 = tm_min u /\
  2 * Z.land (dos_time u) 31 = tm_sec u - tm_sec u mod 2 /\
  (1980 <= tm_year u + 1900 <= 2107 ->
   1980 + Z.shiftr (dos_date u) 9 = tm_year u + 1900 /\
   Z.land (Z.shiftr (dos_date u) 5) 15 = tm_mon u + 1 /\
   Z.land (dos_date u) 31 = tm_mday u).
Proof.
  intros H. pose proof (gmtime_range _ _ H) as (Hs & Hm & Hh & Hd & Hmo & _).
  rewrite (dos_time_formula _ _ H).
  change 63 with (Z.ones 6). change 31 with (Z.ones 5). change 15 with (Z.ones 4).
  rewrite !Z.land_ones, !Z.shiftr_div_pow2 by lia.
  change (2 ^ 11) with 2048. change (2 ^ 5) with 32. change (2 ^ 6) with 64.
  change (2 ^ 9) with 512. change (2 ^ 4) with 16.
  pose proof (Z.div_mod (tm_sec u) 2 ltac:(lia)) as Hdm.
  pose proof (Z.mod_pos_bound (tm_sec u) 2 ltac:(lia)) as Hmb.
  assert (Hhalf : 0 <= tm_sec u / 2 < 30) by lia.
  split; [|split; [|split]].
  - symmetry. apply (Z.div_unique _ _ _ (tm_min u * 32 + tm_sec u / 2)); lia.
  - replace ((tm_hour u * 2048 + tm_min u * 32 + tm_sec u / 2) / 32)
      with (tm_hour u * 64 + tm_min u).
    + symmetry. apply (Z.mod_unique _ _ (tm_hour u)); lia.
    + apply (Z.div_unique _ _ _ (tm_sec u / 2)); lia.
  - replace ((tm_hour u * 2048 + tm_min u * 32 + tm_sec u / 2) mod 32)
      with (tm_sec u / 2); [lia|].
    apply (Z.mod_unique _ _ (tm_hour u * 64 + tm_min u)); lia.
  - intros Hy. rewrite (dos_date_exact _ _ H Hy).
    split; [|split].
    + assert (E : ((tm_year u + 1900 - 1980) * 512 + (tm_mon u + 1) * 32
                   + tm_mday u) / 512 = tm_year u + 1900 - 1980).
      { symmetry.
        apply (Z.div_unique _ _ _ ((tm_mon u + 1) * 32 + tm_mday u)); lia. }
      lia.
    + replace (((tm_year u + 1900 - 1980) * 512 + (tm_mon u + 1) * 32
                + tm_mday u) / 32)
        with ((tm_year u + 1900 - 1980) * 16 + (tm_mon u + 1)).
      * symmetry. apply (Z.mod_unique _ _ (tm_year u + 1900 - 1980)); lia.
      * apply (Z.div_unique _ _ _ (tm_mday u)); lia.
    + symmetry.
      apply (Z.mod_unique _ _ ((tm_year u + 1900 - 1980) * 16 + (tm_mon u + 1)));
        lia.
Qed.

(** ** Arrays *)

Lemma to_int_congr x y k : x = y + 2 ^ 32 * k -> to_int x = to_int y.
Proof.
  intros ->. unfold to_int.
  replace (y + 2 ^ 32 * k + 2 ^ 31) with (y + 2 ^ 31 + k * 2 ^ 32) by lia.
  now rewrite Z_mod_plus_full.
Qed.

Lemma shape_product_step a d :
  to_int (to_u64 (to_u64 (to_int a) * d)) = to_int (a * d).
Proof.
  destruct (to_int_eqm a) as [q ->]. unfold to_u64.
  rewrite (Z.mod_eq (a + 2 ^ 32 * q) (2 ^ 64)) by lia.
  set (k1 := (a + 2 ^ 32 * q) / 2 ^ 64).
  rewrite (Z.mod_eq ((a + 2 ^ 32 * q - 2 ^ 64 * k1) * d) (2 ^ 64)) by lia.
  set (k2 := (a + 2 ^ 32 * q - 2 ^ 64 * k1) * d / 2 ^ 64).
  apply (to_int_congr _ _ (q * d - 2 ^ 32 * k1 * d - 2 ^ 32 * k2)).
  change (2 ^ 64) with (2 ^ 32 * 2 ^ 32). ring.
Qed.

Lemma shape_product_from shape : forall a,
  fold_left (fun acc d => to_int (to_u64 (to_u64 acc * d))) shape (to_int a)
  = to_int (fold_left Z.mul shape a).
Proof.
  induction shape as [|d shape IH]; intros a; cbn [fold_left]; [reflexivity|].
  rewrite shape_product_step. apply IH.
Qed.

(** The element count that [add_array_of_type] accumulates in an [int] is
    the product of the dimensions reduced to 32 bits, two's complement:
    the product itself when it is below 2^31, and for instance 0 when the
    product is a multiple of 2^32. *)
Theorem shape_product_is_int_product shape :
  shape_product shape = to_int (product shape) /\
  (0 <= product shape < 2 ^ 31 -> shape_product shape = product shape) /\
  (product shape mod 2 ^ 32 = 0 -> shape_product shape = 0).
Proof.
  assert (H : shape_product shape = to_int (product shape))
    by exact (shape_product_from shape 1).
  split; [assumption|]. split.
  - intros Hr. rewrite H. apply to_int_small. lia.
  - intros Hm. rewrite H. unfold to_int.
    pose proof (Z.div_mod (product shape) (2 ^ 32) ltac:(lia)) as Hd.
    rewrite Hm, Z.add_0_r in Hd.
    replace (product shape + 2 ^ 31)
      with (2 ^ 31 + (product shape / 2 ^ 32) * 2 ^ 32) by lia.
    rewrite Z_mod_plus_full. reflexivity.
Qed.

Lemma shape_product_is_int_product_witness :
  shape_product [3; 2] = 6 /\ shape_product [65536; 65536] = 0.
Proof.
  split.
  - apply (proj1 (proj2 (shape_product_is_int_product [3; 2]))).
    vm_compute. split; [discriminate|reflexivity].
  - apply (proj2 (proj2 (shape_product_is_int_product [65536; 65536]))).
    vm_compute. reflexivity.
Defined.

Section Arrays.
Context {zlib : Zlib}.

Lemma size_firstn n (d : bytes) : 0 <= n <= size d -> size (firstn (Z.to_nat n) d) = n.
Proof. intros H. unfold size in *. rewrite length_firstn. lia. Qed.

(** [add_array] on an open archive, for a shape whose header is built and
    whose element count is below 2^31, a name that fits with ".npy"
    appended if it was missing, and data at least as long as the array:
    the entry is stored, its payload is the header followed by the bytes
    of the array (element count times element size), and the value
    returned is the length of that payload modulo 2^32.  With a null data
    pointer the payload is the header alone. *)
Theorem array_entry now t name data shape ts st header u :
  good (fs_ st) ->
  create_npy_header (numpy_descr t) shape = Some header ->
  0 <= product shape < 2 ^ 31 ->
  product shape * sizeof t <= size data ->
  size (filename_with_extension name (str ".npy")) <= 0xffff ->
  gmtime (if ts =? 0 then now else ts) = Some u ->
  let full_name := filename_with_extension name (str ".npy") in
  let bytes_of_array := firstn (Z.to_nat (product shape * sizeof t)) data in
  (exists st' h,
     add_array now t name (Some data) shape ts st
     = Returned (to_u32 (size header + product shape * sizeof t)) st' /\
     compression_method h = method_code STORED /\
     size bytes_of_array = product shape * sizeof t /\
     contents (fs_ st')
     = contents (fs_ st) ++ local_entry h full_name (header ++ bytes_of_array)) /\
  (exists st' h,
     add_array now t name None shape ts st
     = Returned (to_u32 (size header)) st' /\
     contents (fs_ st')
     = contents (fs_ st) ++ local_entry h full_name header).
Proof.
  intros Hg Hh Hp Hdata Hname Hu full_name bytes_of_array.
  assert (Hsz : 1 <= sizeof t <= 16) by (destruct t; cbn; lia).
  assert (Hds : to_u64 (to_u64 (shape_product shape) * sizeof t)
                = product shape * sizeof t).
  { replace (shape_product shape) with (product shape)
      by (symmetry; rewrite <- (to_int_small (product shape)) by lia;
          exact (shape_product_from shape 1)).
    unfold to_u64. rewrite (Z.mod_small (product shape)) by lia.
    apply Z.mod_small. nia. }
  assert (Hlen : size bytes_of_array = product shape * sizeof t)
    by (apply size_firstn; nia).
  split.
  - destruct (add_stored_returns now full_name header (Some bytes_of_array)
                ts st u Hname Hu) as [st' Hadd].
    destruct (entry_layout _ _ _ _ _ _ _ _ _ Hg Hadd)
      as (u' & payload & _ & _ & _ & Hc & _ & _ & _ & _ & Hpay).
    eexists st', _. split.
    { unfold add_array, add_array_of_type. rewrite Hh, Hds.
      destruct (Z.leb_spec (2 ^ 63) (product shape * sizeof t)); [nia|].
      destruct (Z.leb_spec (product shape * sizeof t) (size data)); [|lia].
      fold full_name bytes_of_array. rewrite Hadd.
      cbn [size_opt]. now rewrite Hlen. }
    split; [|split; [exact Hlen|]].
    2: { rewrite Hc, Hpay. reflexivity. }
    reflexivity.
  - destruct (add_stored_returns now full_name header None
                ts st u Hname Hu) as [st' Hadd].
    destruct (entry_layout _ _ _ _ _ _ _ _ _ Hg Hadd)
      as (u' & payload & _ & _ & _ & Hc & _ & _ & _ & _ & Hpay).
    eexists st', _. split.
    { unfold add_array, add_array_of_type. rewrite Hh.
      fold full_name. rewrite Hadd. cbn [size_opt]. now rewrite Z.add_0_r. }
    rewrite Hc, Hpay, app_nil_r. reflexivity.
Qed.

Lemma to_int_range v : - 2 ^ 31 <= to_int v < 2 ^ 31.
Proof.
  unfold to_int.
  pose proof (Z.mod_pos_bound (v + 2 ^ 31) (2 ^ 32) ltac:(lia)). lia.
Qed.

Lemma to_u32_to_u64 v : to_u32 (to_u64 v) = to_u32 v.
Proof.
  unfold to_u32, to_u64.
  apply Z.mod_mod_divide. exists (2 ^ 32). reflexivity.
Qed.

Lemma add_negative_returns now name buf0 size1 ts st u :
  size name <= 0xffff ->
  gmtime (if ts =? 0 then now else ts) = Some u ->
  exists st',
    add_file_from_buffers_negative now name buf0 size1 ts st
    = Returned (to_u32 (to_u64 (size buf0 + size1))) st'.
Proof.
  intros Hname Hu. unfold add_file_from_buffers_negative.
  destruct (Z.gtb_spec (size name) 0xffff); [lia|].
  rewrite Hu. eexists. reflexivity.
Qed.

Lemma failed_write (s : ofstream) bs : failed s = true -> write s bs = s.
Proof.
  intros Hf. cbn [write ofstream_ostream]. unfold fs_write. now rewrite Hf.
Qed.

(** [add_array] on an open archive for a shape whose element count, as
    the [int] the code accumulates, is negative (a product of dimensions
    between 2^31 and 2^32, for instance): the byte count handed to the
    last write is negative, so the array header is the whole payload and
    no byte of the data follows it, while the sizes recorded for the entry
    and the value returned are the header length plus the negative count
    times the element size, modulo 2^32.  The sink has failed: closing the
    archive writes neither the central directory nor the end record. *)
Theorem array_of_negative_count now t name data shape ts st header u :
  good (fs_ st) ->
  create_npy_header (numpy_descr t) shape = Some header ->
  shape_product shape < 0 ->
  size (filename_with_extension name (str ".npy")) <= 0xffff ->
  gmtime (recorded_instant now ts) = Some u ->
  let full_name := filename_with_extension name (str ".npy") in
  let recorded_size := to_u32 (size header + shape_product shape * sizeof t) in
  exists st' h st'',
    add_array now t name (Some data) shape ts st = Returned recorded_size st' /\
    uncompressed_size h = recorded_size /\
    contents (fs_ st') = contents (fs_ st) ++ local_entry h full_name header /\
    failed (fs_ st') = true /\
    central_dir_ st'
    = central_dir_ st ++ central_entry h (to_u32 (tellp (fs_ st))) full_name /\
    num_entries_ st' = to_u16 (num_entries_ st + 1) /\
    close st' = Returned tt st'' /\
    contents (fs_ st'') = contents (fs_ st').
Proof.
  intros Hg Hh Hneg Hname Hu full_name recorded_size.
  unfold recorded_instant in Hu.
  assert (Hsz : 1 <= sizeof t <= 16) by (destruct t; cbn; lia).
  assert (Hlow : - 2 ^ 31 <= shape_product shape).
  { pose proof (shape_product_from shape 1) as Hp.
    change (to_int 1) with 1 in Hp.
    unfold shape_product. rewrite Hp. apply to_int_range. }
  set (sp := shape_product shape) in *.
  assert (Hds : to_u64 (to_u64 sp * sizeof t) = 2 ^ 64 + sp * sizeof t).
  { unfold to_u64.
    replace (sp mod 2 ^ 64) with (2 ^ 64 + sp)
      by (apply (Z.mod_unique sp (2 ^ 64) (-1)); lia).
    replace ((2 ^ 64 + sp) * sizeof t)
      with (sp * sizeof t + sizeof t * 2 ^ 64) by ring.
    rewrite Z_mod_plus_full. symmetry.
    apply (Z.mod_unique (sp * sizeof t) (2 ^ 64) (-1)); nia. }
  assert (Hrec : to_u32 (to_u64 (size header + (2 ^ 64 + sp * sizeof t)))
                 = recorded_size).
  { rewrite to_u32_to_u64. unfold recorded_size, to_u32.
    replace (size header + (2 ^ 64 + sp * sizeof t))
      with (size header + sp * sizeof t + 2 ^ 32 * 2 ^ 32) by lia.
    apply Z_mod_plus_full. }
  destruct (add_negative_returns now full_name header
              (2 ^ 64 + sp * sizeof t) ts st u Hname Hu) as [st' Hadd].
  pose proof Hadd as Hinv.
  apply add_file_from_buffers_negative_returned in Hinv
    as (_ & u' & h & _ & _ & _ & _ & Hun & _ & Hcd & Hn & Hf & Hfs).
  exists st', h. eexists. split.
  { unfold add_array, add_array_of_type. rewrite Hh.
    fold sp. rewrite Hds.
    destruct (Z.leb_spec (2 ^ 63) (2 ^ 64 + sp * sizeof t)); [|nia].
    fold full_name. rewrite Hadd, Hrec. reflexivity. }
  split; [rewrite Hun; exact Hrec|].
  split; [exact (Hfs Hg)|]. split; [exact Hf|].
  split; [exact Hcd|]. split; [exact Hn|].
  split; [unfold close; reflexivity|].
  cbn [fs_]. rewrite (proj1 (fs_close_contents _)).
  now rewrite !failed_write by (rewrite ?failed_write; assumption).
Qed.

End Arrays.

Lemma array_of_negative_count_witness :
  exists st',
    add_array (zlib := null_zlib) a_clock int8_t (str "x") (Some [])
      [2147483648] 0 (fresh (str "a.npz"))
    = Returned 2147483776 st' /\
    size (contents (fs_ st')) = 30 + 5 + 128 /\
    failed (fs_ st') = true.
Proof.
  edestruct (array_of_negative_count (zlib := null_zlib) a_clock int8_t
               (str "x") [] [2147483648] 0 (fresh (str "a.npz")))
    as (st' & h & st'' & Hadd & _ & Hc & Hf & _).
  - split; reflexivity.
  - vm_compute. reflexivity.
  - vm_compute. reflexivity.
  - vm_compute. discriminate.
  - vm_compute. reflexivity.
  - exists st'. split; [exact Hadd|]. split; [|exact Hf].
    rewrite Hc, size_app. unfold size. rewrite length_local_entry.
    reflexivity.
Defined.

(** ** Reading a shape back *)

Lemma until_app c p rest :
  Forall (fun b => b <> c) p -> until c (p ++ c :: rest) = p.
Proof.
  induction 1 as [|b p Hb _ IH]; cbn [app until].
  - now rewrite Z.eqb_refl.
  - destruct (Z.eqb_spec b c); [contradiction|]. now rewrite IH.
Qed.

Lemma split_on_app c p rest :
  Forall (fun b => b <> c) p ->
  split_on c (p ++ c :: rest) = p :: split_on c rest.
Proof.
  induction 1 as [|b p Hb _ IH]; cbn [app split_on].
  - now rewrite Z.eqb_refl.
  - destruct (Z.eqb_spec b c); [contradiction|]. now rewrite IH.
Qed.

Lemma split_on_clean c p : Forall (fun b => b <> c) p -> split_on c p = [p].
Proof.
  induction 1 as [|b p Hb _ IH]; cbn [split_on]; [reflexivity|].
  destruct (Z.eqb_spec b c); [contradiction|]. now rewrite IH.
Qed.

Lemma digits_are_digits fuel : forall n acc,
  Forall (fun b => 48 <= b <= 57) acc ->
  Forall (fun b => 48 <= b <= 57) (digits fuel n acc).
Proof.
  induction fuel; intros n acc Hacc; cbn [digits]; [assumption|].
  assert (Forall (fun b => 48 <= b <= 57) (48 + n mod 10 :: acc)).
  { constructor; [|assumption]. pose proof (Z.mod_pos_bound n 10). lia. }
  destruct (n / 10 =? 0); [assumption|]. now apply IHfuel.
Qed.

Lemma digits_grow fuel : forall n acc,
  (length acc <= length (digits fuel n acc))%nat.
Proof.
  induction fuel; intros n acc; cbn [digits]; [lia|].
  destruct (n / 10 =? 0); [cbn [length]; lia|].
  specialize (IHfuel (n / 10) (48 + n mod 10 :: acc)). cbn [length] in IHfuel.
  lia.
Qed.

Lemma to_string_digits n : Forall (fun b => 48 <= b <= 57) (to_string n).
Proof. apply digits_are_digits. constructor. Qed.

Lemma digits_longer fuel n acc :
  (length acc < length (digits (S fuel) n acc))%nat.
Proof.
  change (digits (S fuel) n acc)
    with (if n / 10 =? 0 then 48 + n mod 10 :: acc
          else digits fuel (n / 10) (48 + n mod 10 :: acc)).
  destruct (n / 10 =? 0); [cbn [length]; lia|].
  pose proof (digits_grow fuel (n / 10) (48 + n mod 10 :: acc)) as H.
  cbn [length] in H. lia.
Qed.

Lemma to_string_nonempty n : nonempty (to_string n) = true.
Proof.
  pose proof (digits_longer 19 n []) as H.
  change (digits 20 n []) with (to_string n) in H.
  destruct (to_string n); [cbn [length] in H; lia|reflexivity].
Qed.

Lemma to_string_no (c : Z) n : c < 48 -> Forall (fun b => b <> c) (to_string n).
Proof.
  intros Hc. eapply Forall_impl; [|apply to_string_digits].
  cbv beta. intros b Hb. lia.
Qed.

Lemma split_joined ds : ds <> [] ->
  split_on 44 (join (str ",") (map to_string ds)) = map to_string ds.
Proof.
  induction ds as [|d [|d' rest] IH]; intros Hne; [contradiction| |].
  - cbn [map join]. apply split_on_clean. apply to_string_no. lia.
  - change (map to_string (d :: d' :: rest))
      with (to_string d :: map to_string (d' :: rest)).
    change (join (str ",") (to_string d :: map to_string (d' :: rest)))
      with (to_string d ++ 44 :: join (str ",") (map to_string (d' :: rest))).
    rewrite split_on_app by (apply to_string_no; lia).
    rewrite IH by discriminate. reflexivity.
Qed.

Lemma filter_nonempty_strings ds :
  filter nonempty (map to_string ds) = map to_string ds.
Proof.
  induction ds as [|d ds IH]; cbn [map filter]; [reflexivity|].
  now rewrite to_string_nonempty, IH.
Qed.

Lemma shape_text_no_paren shape :
  Forall (fun b => b <> 41) (shape_text shape).
Proof.
  assert (J : forall ds, Forall (fun b => b <> 41)
                           (join (str ",") (map to_string ds))).
  { induction ds as [|d [|d' rest] IH].
    - constructor.
    - cbn [map join]. apply to_string_no. lia.
    - change (map to_string (d :: d' :: rest))
        with (to_string d :: map to_string (d' :: rest)).
      change (join (str ",") (to_string d :: map to_string (d' :: rest)))
        with (to_string d ++ 44 :: join (str ",") (map to_string (d' :: rest))).
      apply Forall_app. split; [apply to_string_no; lia|].
      constructor; [discriminate|assumption]. }
  destruct shape as [|d [|d' rest]]; cbn [shape_text]; try apply J.
  apply Forall_app. split; [apply to_string_no; lia|].
  constructor; [discriminate|constructor].
Qed.

Lemma shape_text_pieces shape : shape <> [] ->
  filter nonempty (split_on 44 (shape_text shape)) = map to_string shape.
Proof.
  intros Hne. destruct shape as [|d [|d' rest]]; [contradiction| |].
  - cbn [shape_text map]. change (str ",") with [44].
    rewrite split_on_app by (apply to_string_no; lia).
    cbn [split_on filter nonempty]. now rewrite to_string_nonempty.
  - unfold shape_text. rewrite split_joined by discriminate.
    apply filter_nonempty_strings.
Qed.

Lemma after_dictionary t shape tail :
  after 40 (dictionary (numpy_descr t) shape ++ tail)
  = (shape_text shape ++ str ")}") ++ tail.
Proof. destruct t; reflexivity. Qed.

Lemma some_eq {A} (x y : A) : Some x = Some y -> x = y.
Proof. now intros [= ->]. Qed.

Lemma skipn_replace2 padded p :
  (10 <= length padded)%nat -> length p = 2%nat ->
  skipn 10 (replace2 padded 8 p) = skipn 10 padded.
Proof.
  intros Hl Hp. unfold replace2.
  rewrite skipn_app, length_firstn, Nat.min_l by lia.
  rewrite (skipn_all2 (firstn 8 padded)) by (rewrite length_firstn; lia).
  rewrite app_nil_l, skipn_app, Hp.
  rewrite (skipn_all2 p) by lia. reflexivity.
Qed.

(** What follows the 10 bytes of [NpyHeader] in a header that is built:
    the dictionary, spaces and a newline. *)
Lemma create_npy_header_body type_descr shape header :
  create_npy_header type_descr shape = Some header ->
  exists k, skipn 10 header
            = dictionary type_descr shape ++ repeat 32 k ++ [10].
Proof.
  destruct shape as [|d0 rest]; [discriminate|].
  rewrite create_npy_header_eq. cbv zeta.
  set (padded := ((npy_header_bytes 54 ++ dictionary type_descr (d0 :: rest))
                  ++ repeat 32 (Z.to_nat (pad_count
                       (size (npy_header_bytes 54
                              ++ dictionary type_descr (d0 :: rest))))))
                 ++ [10]).
  assert (Hs : skipn 10 padded
               = dictionary type_descr (d0 :: rest)
                 ++ repeat 32 (Z.to_nat (pad_count
                      (size (npy_header_bytes 54
                             ++ dictionary type_descr (d0 :: rest))))) ++ [10]).
  { subst padded. rewrite <- !app_assoc. reflexivity. }
  assert (Hl : (10 <= length padded)%nat).
  { subst padded. rewrite !length_app. cbn [length npy_header_bytes]. 
    change (length (npy_header_bytes 54)) with 10%nat. lia. }
  clearbody padded.
  destruct (size padded <=? 0xffff); [|discriminate].
  destruct (size padded >? 64).
  - destruct (_ mod 64 =? 0); [|discriminate].
    intros H. apply some_eq in H. subst header. eexists.
    rewrite skipn_replace2 by (assumption || apply length_le_bytes).
    exact Hs.
  - destruct (_ mod 64 =? 0); [|discriminate].
    intros H. apply some_eq in H. subst header. eexists. exact Hs.
Qed.

(** The shape written in a header reads back: for a non-empty shape of
    [size_t] dimensions and a supported element type, the numbers between
    the parentheses of the dictionary of the header that
    [create_npy_header] built are the dimensions, in order. *)
Theorem shape_reads_back t shape header :
  Forall (fun d => 0 <= d < 2 ^ 64) shape ->
  create_npy_header (numpy_descr t) shape = Some header ->
  read_shape header = shape.
Proof.
  intros Hrange H.
  assert (Hne : shape <> []) by (destruct shape; [discriminate|discriminate]).
  destruct (create_npy_header_body _ _ _ H) as [k Hbody].
  unfold read_shape. rewrite Hbody, after_dictionary.
  change (str ")}") with [41; 125]. rewrite <- app_assoc.
  change ([41; 125] ++ repeat 32 k ++ [10]) with (41 :: 125 :: repeat 32 k ++ [10]).
  rewrite until_app by apply shape_text_no_paren.
  rewrite shape_text_pieces by assumption.
  rewrite map_map. clear - Hrange.
  induction Hrange as [|d shape Hd _ IH]; cbn [map]; [reflexivity|].
  now rewrite to_string_decimal, IH.
Qed.

Lemma shape_reads_back_witness :
  exists header,
    create_npy_header (numpy_descr float) [3; 2] = Some header /\
    read_shape header = [3; 2].
Proof.
  assert (H : exists header,
            create_npy_header (numpy_descr float) [3; 2] = Some header)
    by (eexists; vm_compute; reflexivity).
  destruct H as [header H]. exists header. split; [exact H|].
  apply (shape_reads_back float [3; 2] header); [|exact H].
  repeat constructor; vm_compute; discriminate.
Defined.

(** ** The compressed payload *)

Lemma length_store buffer off p :
  (off + length p <= length buffer)%nat ->
  length (store buffer (Z.of_nat off) p) = length buffer.
Proof.
  intros H. unfold store. rewrite Nat2Z.id.
  rewrite !length_app, length_firstn, length_skipn. lia.
Qed.

Lemma firstn_store buffer off p :
  (off <= length buffer)%nat ->
  firstn (off + length p) (store buffer (Z.of_nat off) p)
  = firstn off buffer ++ p.
Proof.
  intros H. unfold store. rewrite Nat2Z.id.
  assert (Hl : length (firstn off buffer) = off) by (rewrite length_firstn; lia).
  rewrite <- Hl at 1. rewrite firstn_app_2, firstn_app, firstn_all.
  now rewrite Nat.sub_diag, firstn_O, app_nil_r.
Qed.

Lemma to_u32_le x : 0 <= x -> 0 <= to_u32 x <= x.
Proof.
  intros H. unfold to_u32. pose proof (Z.mod_pos_bound x (2 ^ 32) ltac:(lia)).
  pose proof (Z.mod_le x (2 ^ 32) H ltac:(lia)). lia.
Qed.

Section Compressed.
Context {zlib : Zlib}.

(** The vector [compressed] of a deflated entry is what zlib produced for
    the first fragment followed by what it produced for the second: the
    second call writes right behind the output of the first, in what is
    left of the room that [compressBound] gave, and the final resize cuts
    the vector to the two outputs. *)
Theorem compressed_is_concatenation buf0 buf1 total_size strm compressed s0 :
  deflateInit2 = Some s0 ->
  deflate_payload buf0 buf1 total_size = Deflated strm compressed ->
  let room := size (resize [] (compressBound total_size)) in
  match buf1 with
  | None => compressed = produced s0 (fed buf0) (to_u32 room) Z_FINISH
  | Some b1 =>
    let p1 := produced s0 (fed buf0) (to_u32 room) Z_NO_FLUSH in
    let s1 := state_after s0 (fed buf0) (to_u32 room) Z_NO_FLUSH in
    compressed = p1 ++ produced s1 (fed b1) (to_u32 (room - size p1)) Z_FINISH
  end.
Proof.
  intros Hinit. unfold deflate_payload. rewrite Hinit.
  remember (resize [] (compressBound total_size)) as buffer eqn:Hbuf.
  clear Hbuf. intros H.
  pose proof (size_nonneg buffer) as Hb.
  pose proof (to_u32_le _ Hb) as Hroom.
  unfold compress_chunk at 1 in H. unfold deflate in H.
  cbn [internal next_in avail_out total_out next_out avail_in total_in history]
    in H.
  fold (fed buf0) in H.
  unfold produced, state_after.
  destruct buf1 as [b1|].
  - destruct (deflate_engine s0 (fed buf0) (to_u32 (size buffer)) Z_NO_FLUSH)
      as [[[ret1 c1] out1] s1] eqn:E1.
    remember (firstn (Z.to_nat (to_u32 (size buffer))) out1) as p1 eqn:Ep1.
    assert (Hp1 : size p1 <= to_u32 (size buffer)).
    { subst p1. unfold size at 1. rewrite length_firstn. lia. }
    clear Ep1. pose proof (size_nonneg p1) as Hp1'.
    assert (Hn1 : (length p1 <= length buffer)%nat) by (unfold size in *; lia).
    destruct ((ret1 =? Z_OK) || (ret1 =? Z_BUF_ERROR)); [|discriminate].
    cbn [avail_in total_out] in H.
    destruct (_ =? 0); [|discriminate].
    change (0 + size p1) with (size p1) in H.
    assert (Hl1 : length (store buffer 0 p1) = length buffer)
      by (apply (length_store buffer 0 p1); cbn [Nat.add]; assumption).
    assert (Hs1 : size (store buffer 0 p1) = size buffer)
      by (unfold size; now rewrite Hl1).
    unfold compress_chunk in H. unfold deflate in H.
    cbn [internal next_in avail_out total_out next_out avail_in total_in history]
      in H.
    fold (fed b1) in H. rewrite Hs1 in H.
    destruct (deflate_engine s1 (fed b1) (to_u32 (size buffer - size p1)) Z_FINISH)
      as [[[ret2 c2] out2] s2] eqn:E2.
    remember (firstn (Z.to_nat (to_u32 (size buffer - size p1))) out2) as p2 eqn:Ep2.
    assert (Hrest : 0 <= to_u32 (size buffer - size p1) <= size buffer - size p1)
      by (apply to_u32_le; lia).
    assert (Hp2 : size p2 <= size buffer - size p1).
    { subst p2. unfold size at 1. rewrite length_firstn. lia. }
    clear Ep2.
    assert (Hn2 : (length p1 + length p2 <= length buffer)%nat)
      by (unfold size in *; lia).
    destruct (ret2 =? Z_STREAM_END); [|discriminate].
    cbn [total_in total_out] in H.
    destruct (_ =? total_size); [|discriminate].
    apply (f_equal (fun d => match d with Deflated _ c => c | _ => [] end)) in H.
    cbv beta iota in H. rewrite <- H. clear H.
    unfold resize.
    replace (Z.to_nat (size p1 + size p2)) with (length p1 + length p2)%nat
      by (unfold size; lia).
    assert (Hl2 : length (store (store buffer 0 p1) (size p1) p2) = length buffer).
    { unfold size at 1. rewrite length_store; [assumption|]. now rewrite Hl1. }
    rewrite Hl2.
    replace (length p1 + length p2 - length buffer)%nat with O by lia.
    cbn [repeat]. rewrite app_nil_r. unfold size at 1.
    rewrite firstn_store by (rewrite Hl1; lia).
    f_equal.
    change (firstn (length p1) (store buffer 0 p1))
      with (firstn (0 + length p1) (store buffer (Z.of_nat 0) p1)).
    rewrite firstn_store by lia. reflexivity.
  - destruct (deflate_engine s0 (fed buf0) (to_u32 (size buffer)) Z_FINISH)
      as [[[ret1 c1] out1] s1] eqn:E1.
    remember (firstn (Z.to_nat (to_u32 (size buffer))) out1) as p1 eqn:Ep1.
    assert (Hp1 : size p1 <= to_u32 (size buffer)).
    { subst p1. unfold size at 1. rewrite length_firstn. lia. }
    clear Ep1.
    assert (Hn1 : (length p1 <= length buffer)%nat) by (unfold size in *; lia).
    destruct (ret1 =? Z_STREAM_END); [|discriminate].
    cbn [avail_in total_out total_in] in H.
    destruct (_ =? 0); [|discriminate].
    destruct (_ =? total_size); [|discriminate].
    apply (f_equal (fun d => match d with Deflated _ c => c | _ => [] end)) in H.
    cbv beta iota in H. rewrite <- H. clear H.
    change (0 + size p1) with (size p1).
    unfold resize.
    replace (Z.to_nat (size p1)) with (0 + length p1)%nat by (unfold size; lia).
    assert (Hl1 : length (store buffer 0 p1) = length buffer)
      by (apply (length_store buffer 0 p1); cbn [Nat.add]; assumption).
    rewrite Hl1.
    replace (0 + length p1 - length buffer)%nat with O by lia.
    cbn [repeat]. rewrite app_nil_r.
    change (store buffer 0 p1) with (store buffer (Z.of_nat 0) p1).
    rewrite firstn_store by lia. reflexivity.
Qed.

End Compressed.

Lemma compressed_is_concatenation_witness :
  exists strm compressed,
    deflate_payload (zlib := null_zlib) (str "x") (Some (str "yz")) 3
    = Deflated strm compressed /\
    compressed
    = produced (zlib := null_zlib) tt (fed (str "x")) (to_u32 16) Z_NO_FLUSH
      ++ produced (zlib := null_zlib) tt (fed (str "yz")) (to_u32 16) Z_FINISH.
Proof.
  assert (H : exists strm compressed,
            deflate_payload (zlib := null_zlib) (str "x") (Some (str "yz")) 3
            = Deflated strm compressed)
    by (eexists _, _; vm_compute; reflexivity).
  destruct H as (strm & compressed & H). exists strm, compressed.
  split; [exact H|].
  exact (compressed_is_concatenation (zlib := null_zlib) (str "x")
           (Some (str "yz")) 3 strm compressed tt eq_refl H).
Defined.

(** ** Runs of the further properties *)

Lemma filename_with_extension_ends_witness :
  filename_with_extension (str "matrix" ++ str ".npy") (str ".npy")
  = str "matrix" ++ str ".npy".
Proof.
  apply (proj1 (proj2 (proj2 (filename_with_extension_ends
                                (str "matrix" ++ str ".npy") (str ".npy"))))
           (str "matrix")).
  reflexivity.
Defined.


Lemma local_header_fields_witness :
  field 14 4 (contents (fs_ after_first)) = 0 /\
  field 18 4 (contents (fs_ after_first)) = 15 /\
  firstn 10 (skipn 30 (contents (fs_ after_first))) = str "bubble.txt".
Proof.
  destruct (local_header_fields (zlib := null_zlib) a_clock
              (str "bubble.txt") (str "Words are loud" ++ [10]) None 0 STORED
              (fresh (str "ziptest.zip")) 15 after_first
              ltac:(split; reflexivity) ltac:(vm_compute; reflexivity))
    as (_ & _ & _ & _ & Hcrc & Hcs & _ & _ & _ & Hname).
  split; [exact Hcrc|]. split; [exact Hcs|exact Hname].
Defined.

Lemma central_record_mirrors_local_header_witness :
  field 0 4 (central_dir_ after_first) = 0x02014b50 /\
  firstn 26 (skipn 6 (central_dir_ after_first))
  = firstn 26 (skipn 4 (contents (fs_ after_first))).
Proof.
  destruct (central_record_mirrors_local_header (zlib := null_zlib) a_clock
              (str "bubble.txt") (str "Words are loud" ++ [10]) None 0 STORED
              (fresh (str "ziptest.zip")) 15 after_first
              ltac:(split; reflexivity) ltac:(vm_compute; reflexivity))
    as (_ & Hsig & _ & Hsame & _).
  split; [exact Hsig|exact Hsame].
Defined.



Lemma add_after_close_witness :
  exists r st',
    add_file_from_buffers (zlib := null_zlib) a_clock (str "late.txt")
      (str "lost") None 0 STORED closed_bubble = Returned r st' /\
    contents (fs_ st') = contents (fs_ closed_bubble) /\
    num_entries_ st' = 3.
Proof.
  assert (H : exists r st',
            add_file_from_buffers (zlib := null_zlib) a_clock (str "late.txt")
              (str "lost") None 0 STORED closed_bubble = Returned r st')
    by (eexists _, _; vm_compute; reflexivity).
  destruct H as (r & st' & H). exists r, st'. split; [exact H|].
  destruct (add_after_close (zlib := null_zlib) a_clock (str "late.txt")
              (str "lost") None 0 STORED closed_bubble r st'
              ltac:(reflexivity) H) as (Hc & _ & Hn & _).
  split; [exact Hc|exact Hn].
Defined.

Lemma zlib_initialisation_failure_witness :
  exists st',
    add_file_from_buffers (zlib := failing_zlib) a_clock (str "a") (str "x")
      None 0 DEFLATE (fresh (str "t.zip"))
    = Thrown (runtime_error (str "Failed to initialize zlib")) st' /\
    fs_ st' = fs_ (fresh (str "t.zip")) /\
    central_dir_ st' = central_dir_ (fresh (str "t.zip")) /\
    num_entries_ st' = to_u16 (num_entries_ (fresh (str "t.zip")) + 1).
Proof.
  apply (zlib_initialisation_failure (zlib := failing_zlib) a_clock (str "a")
           (str "x") None 0 (fresh (str "t.zip"))
           {| tm_sec := 20; tm_min := 13; tm_hour := 22; tm_mday := 14;
              tm_mon := 10; tm_year := 123 |}).
  - reflexivity.
  - vm_compute. discriminate.
  - vm_compute. reflexivity.
Defined.

Lemma array_entry_witness :
  exists header st' h,
    create_npy_header (numpy_descr float) [3; 2] = Some header /\
    add_array (zlib := null_zlib) a_clock float (str "matrix")
      (Some (repeat 0 24)) [3; 2] 0 (fresh (str "npztest"))
    = Returned (to_u32 (size header + product [3; 2] * sizeof float)) st' /\
    contents (fs_ st')
    = contents (fs_ (fresh (str "npztest")))
      ++ local_entry h (filename_with_extension (str "matrix") (str ".npy"))
           (header ++ firstn (Z.to_nat (product [3; 2] * sizeof float))
                        (repeat 0 24)).
Proof.
  assert (H : exists header,
            create_npy_header (numpy_descr float) [3; 2] = Some header)
    by (eexists; vm_compute; reflexivity).
  destruct H as [header H].
  destruct (proj1 (array_entry (zlib := null_zlib) a_clock float (str "matrix")
              (repeat 0 24) [3; 2] 0 (fresh (str "npztest")) header
              {| tm_sec := 20; tm_min := 13; tm_hour := 22; tm_mday := 14;
                 tm_mon := 10; tm_year := 123 |}
              ltac:(split; reflexivity) H
              ltac:(vm_compute; split; [discriminate|reflexivity])
              ltac:(vm_compute; discriminate)
              ltac:(vm_compute; discriminate)
              ltac:(vm_compute; reflexivity)))
    as (st' & h & Hadd & _ & _ & Hc).
  exists header, st', h. split; [exact H|]. split; [exact Hadd|exact Hc].
Defined.

Lemma dos_fields_decode_witness :
  exists u,
    gmtime 946684800 = Some u /\
    Z.shiftr (dos_time u) 11 = tm_hour u /\
    1980 + Z.shiftr (dos_date u) 9 = tm_year u + 1900.
Proof.
  exists {| tm_sec := 0; tm_min := 0; tm_hour := 0; tm_mday := 1;
            tm_mon := 0; tm_year := 100 |}.
  assert (Hg : gmtime 946684800
               = Some {| tm_sec := 0; tm_min := 0; tm_hour := 0; tm_mday := 1;
                         tm_mon := 0; tm_year := 100 |})
    by (vm_compute; reflexivity).
  destruct (dos_fields_decode _ _ Hg) as (Hh & _ & _ & Hd).
  split; [exact Hg|]. split; [exact Hh|].
  apply Hd. vm_compute. split; discriminate.
Defined.

Lemma entry_count_of_run_witness :
  exists recs,
    parse_central_dir (central_dir_ after_bubble) = Some recs /\
    length recs = length bubble /\
    num_files after_bubble = Z.of_nat (length recs) mod 2 ^ 16.
Proof.
  apply (entry_count_of_run (zlib := null_zlib) (str "ziptest.zip") bubble).
  vm_compute. reflexivity.
Defined.

End Cnpz.
